(** * Gesture-controlled tree: classifier, mode state machine, animation driver

    A shallow embedding of the control core of the application:
    - [HandController.processResults]  (gesture classifier),
    - [App.handleHandUpdate] and [App.handlePhotoUpload] (mode state machine),
    - the [useEffect] of [PhotoCloud] that owns the zoom selection,
    - the per-frame particle update of [Ornaments].

    JavaScript numbers are IEEE-754 binary64 values and are modelled by the
    primitive floats of the kernel; [Date.now()] is an integer number of
    milliseconds and is modelled by [Z].  Hooks become explicit state:
    a [useState] cell or a [useRef] is a record field, a handler is a
    function from the state it sees to the state it leaves, and React
    renders again (running the effects whose dependencies changed) before
    the next event is handled.  Library functions the sources only call
    ([THREE.MathUtils.damp], [Math.sin], [Math.cos], [Math.random]) are
    parameters of the definitions that use them. *)

From Stdlib Require Import ZArith Lia List Bool String.
From Stdlib Require Import Floats.
From Stdlib Require Import Reals Lra.
From stdpp Require Import base list.

Set Warnings "-inexact-float".

Open Scope Z_scope.

(** ** types.ts *)

Inductive AppState := TREE | SCATTERED | ZOOM.

Inductive GestureType := NONE | FIST | OPEN_HAND | PINCH.

Record HandData := mkHandData {
  gesture : GestureType;
  x : float;
  y : float;
  tiltX : float;
  tiltY : float
}.

Record PhotoData := mkPhotoData {
  id : string;
  url : string;
  aspectRatio : float
}.

#[global] Instance AppState_eq_dec : EqDecision AppState.
Proof. solve_decision. Defined.

#[global] Instance GestureType_eq_dec : EqDecision GestureType.
Proof. solve_decision. Defined.

(** ** constants.ts *)

Module CONFIG.
Definition PARTICLE_COUNT : nat := 150.
Definition TREE_HEIGHT : float := 12%float.
Definition TREE_RADIUS_BOTTOM : float := 6%float.
Definition SCATTER_RADIUS : float := 15%float.
Definition CAMERA_Z : float := 18%float.
End CONFIG.

(** ** The numeric built-ins the sources call *)

Module JSMath.

(** A loop counter or an array length used as a number. *)
Definition of_nat (n : nat) : float :=
  PrimFloat.of_uint63 (Uint63.of_Z (Z.of_nat n)).

(** [Math.floor]: the largest integer not above its argument, as a
    binary64.  A finite float is [m * 2^e] with [m < 2^53]; when [e] is
    negative its integer part is below [2^53] and is represented exactly.
    Zeros, infinities and NaN are returned as they are. *)
Definition Math_floor (v : float) : float :=
  match Prim2SF v with
  | S754_finite s m e =>
      if (0 <=? e)%Z then v
      else
        let q := Z.shiftr (Zpos m) (- e) in
        let exact := (Z.shiftl q (- e) =? Zpos m)%Z in
        if s then
          (- PrimFloat.of_uint63 (Uint63.of_Z (if exact then q else q + 1)))%float
        else PrimFloat.of_uint63 (Uint63.of_Z q)
  | _ => v
  end.
End JSMath.

(** ** HandController.tsx: the gesture classifier *)

Module HandController.

(** A landmark of the hand tracker: [{x, y, z}]. *)
Record Landmark := mkLandmark { lx : float; ly : float; lz : float }.

(** [HandLandmarkerResult]: both fields are tested for truthiness before
    use, so either may be absent. *)
Record HandLandmarkerResult := mkResult {
  landmarks : option (list (list Landmark));
  worldLandmarks : option (list (list Landmark))
}.

(** [a[i]] followed by a property access: reading a property of
    [undefined] throws a [TypeError], rendered here by [None]. *)
Definition at_ (a : list Landmark) (i : nat) : option Landmark := a !! i.

(** [Math.pow(d, 2)], taken to be the correctly rounded square. *)
Definition pow2 (d : float) : float := (d * d)%float.

Definition dist3D (p1 p2 : Landmark) : float :=
  PrimFloat.sqrt (pow2 (lx p1 - lx p2) + pow2 (ly p1 - ly p2)
                  + pow2 (lz p1 - lz p2))%float.

Definition dist2D (p1 p2 : Landmark) : float :=
  PrimFloat.sqrt (pow2 (lx p1 - lx p2) + pow2 (ly p1 - ly p2))%float.

(** [tips.reduce((acc, tip) => acc + dist(tip, wrist), 0) / 4] *)
Definition avgDist (dist : Landmark -> Landmark -> float)
    (tips : list Landmark) (wrist : Landmark) : float :=
  (fold_left (fun acc tip => acc + dist tip wrist) tips 0 / 4)%float.

(** The [if / else if / else if] cascade; [gesture] keeps its initial
    value [NONE] when no branch is taken. *)
Definition cascade (avgDistToWrist pinchDist fistT pinchT openT : float)
    : GestureType :=
  if (avgDistToWrist <? fistT)%float then FIST
  else if (pinchDist <? pinchT)%float then PINCH
  else if (openT <? avgDistToWrist)%float then OPEN_HAND
  else NONE.

Definition gesture3D (wl : list Landmark) : option GestureType :=
  wrist3D ← at_ wl 0;
  thumbTip3D ← at_ wl 4;
  indexTip3D ← at_ wl 8;
  middleTip3D ← at_ wl 12;
  ringTip3D ← at_ wl 16;
  pinkyTip3D ← at_ wl 20;
  let tips := [indexTip3D; middleTip3D; ringTip3D; pinkyTip3D] in
  let avgDistToWrist := avgDist dist3D tips wrist3D in
  let pinchDist := dist3D thumbTip3D indexTip3D in
  Some (cascade avgDistToWrist pinchDist 0.085 0.035 0.11).

Definition gesture2D (lm : list Landmark) (wrist : Landmark)
    : option GestureType :=
  thumbTip ← at_ lm 4;
  indexTip ← at_ lm 8;
  middleTip ← at_ lm 12;
  ringTip ← at_ lm 16;
  pinkyTip ← at_ lm 20;
  let avgDistToWrist :=
    avgDist dist2D [indexTip; middleTip; ringTip; pinkyTip] wrist in
  Some (cascade avgDistToWrist (dist2D thumbTip indexTip) 0.3 0.05 0.4).

(** The neutral pose the locals are initialised with. *)
Definition neutral : HandData := mkHandData NONE 0.5 0.5 0 0.

(** [processResults]: the value handed to [onHandUpdate], or [None] when
    the body throws (the caller [predict] catches and logs). *)
Definition processResults (results : HandLandmarkerResult)
    : option HandData :=
  match landmarks results with
  | Some (lm :: _) =>
      wrist ← at_ lm 0;
      indexMCP ← at_ lm 5;
      pinkyMCP ← at_ lm 17;
      let palmCenterX := ((lx wrist + lx indexMCP + lx pinkyMCP) / 3)%float in
      let palmCenterY := ((ly wrist + ly indexMCP + ly pinkyMCP) / 3)%float in
      let x := (1 - palmCenterX)%float in
      let y := palmCenterY in
      let tiltX := ((lx indexMCP - lx pinkyMCP) * 10)%float in
      let tiltY := ((ly wrist - ly indexMCP) * 5)%float in
      g ← match worldLandmarks results with
          | Some (wl :: _) => gesture3D wl
          | _ => gesture2D lm wrist
          end;
      Some (mkHandData g x y tiltX tiltY)
  | _ => Some neutral
  end.

End HandController.

(** ** App.tsx: the mode state machine *)

Module App.

(** The hooks of [App]: [appState], [photos], [handData] are [useState]
    cells, [lastStateChange] is the [useRef] holding the time of the last
    accepted transition. *)
Record State := mkState {
  appState : AppState;
  photos : list PhotoData;
  handData : HandData;
  lastStateChange : Z
}.

Definition init : State :=
  mkState TREE [] (mkHandData NONE 0.5 0.5 0 0) 0.

Definition setHandData (d : HandData) (s : State) : State :=
  mkState (appState s) (photos s) d (lastStateChange s).

(** [setAppState(m); lastStateChange.current = now] *)
Definition transition (m : AppState) (now : Z) (s : State) : State :=
  mkState m (photos s) (handData s) now.

(** [handleHandUpdate(data)], with [now] the value of [Date.now()]. *)
Definition handleHandUpdate (s : State) (data : HandData) (now : Z) : State :=
  let s := setHandData data s in
  let timeSinceChange := now - lastStateChange s in
  if bool_decide (gesture data = FIST) && negb (bool_decide (appState s = TREE))
  then transition TREE now s
  else if timeSinceChange <? 500 then s
  else if bool_decide (gesture data = OPEN_HAND)
          && bool_decide (appState s = TREE)
  then transition SCATTERED now s
  else if bool_decide (gesture data = PINCH)
          && bool_decide (appState s = SCATTERED)
  then (if (0 <? length (photos s))%nat then transition ZOOM now s else s)
  else if bool_decide (gesture data = OPEN_HAND)
          && bool_decide (appState s = ZOOM)
  then transition SCATTERED now s
  else s.

Section Upload.
(** The browser objects the upload handler touches. *)
Variable File : Type.
Variable createObjectURL : File -> string.
(** [Math_random k] is the value of the [k]-th call of [Math.random()]
    made by these sources. *)
Variable Math_random : nat -> float.
(** [r.toString(36).substr(2, 9)] *)
Variable toString36 : float -> string.

Definition newPhotos (rng : nat) (files : list File) : list PhotoData :=
  imap (fun k file =>
          mkPhotoData (toString36 (Math_random (rng + k)))
                      (createObjectURL file) 1) files.

(** [handlePhotoUpload(e)]: [files] is [e.target.files], [rng] the number
    of [Math.random()] calls made so far; returns the new count too. *)
Definition handlePhotoUpload (s : State) (files : option (list File))
    (rng : nat) : State * nat :=
  match files with
  | Some fs =>
      (mkState (if bool_decide (appState s = TREE) then SCATTERED
                else appState s)
               (photos s ++ newPhotos rng fs)
               (handData s) (lastStateChange s),
       (rng + length fs)%nat)
  | None => (s, rng)
  end.
End Upload.

End App.

(** ** PhotoCloud.tsx: the zoom selection *)

Module PhotoCloud.

(** [activePhotoIndex] is the [useState] cell ([-1] is "none"); [deps] are
    the dependencies [[appState, photos.length]] of the last run of the
    effect ([None] before the component has mounted). *)
Record State := mkState {
  activePhotoIndex : float;
  deps : option (AppState * nat)
}.

Definition init : State := mkState (-1)%float None.

Section Effect.
Variable Math_random : nat -> float.

(** The body of the effect. *)
Definition effect (appState : AppState) (photos_length : nat)
    (rng : nat) : float * nat :=
  if bool_decide (appState = ZOOM) && (0 <? photos_length)%nat then
    let nextIndex :=
      JSMath.Math_floor (Math_random rng * JSMath.of_nat photos_length)%float in
    (nextIndex, S rng)
  else ((-1)%float, rng).

(** One render of the component followed by its effects.  The layout
    [useMemo] draws three random numbers per photo when [photos] is a
    new array ([new_photos]); the effect runs when one of its
    dependencies differs from its value at the previous run. *)
Definition render (appState : AppState) (photos : list PhotoData)
    (new_photos : bool) (c : State) (rng : nat) : State * nat :=
  let rng := if new_photos then (rng + 3 * length photos)%nat else rng in
  if bool_decide (deps c = Some (appState, length photos))
  then (c, rng)
  else
    let '(nextIndex, rng) := effect appState (length photos) rng in
    (mkState nextIndex (Some (appState, length photos)), rng).
End Effect.

End PhotoCloud.

(** ** The application as a whole: events and re-rendering *)

Module World.

(** What reaches the application: a pose from the hand tracker (with the
    [Date.now()] read by the handler) or a change of the file input. *)
Inductive Event (File : Type) :=
| HandUpdate (data : HandData) (now : Z)
| PhotoUpload (files : option (list File)).
Arguments HandUpdate {File} data now.
Arguments PhotoUpload {File} files.

Record State := mkState {
  app : App.State;
  cloud : PhotoCloud.State;
  rng : nat
}.

Section Run.
Variable File : Type.
Variable createObjectURL : File -> string.
Variable Math_random : nat -> float.
Variable toString36 : float -> string.

(** First render: [App] in its initial state, [PhotoCloud] mounts and
    its effect runs once. *)
Definition mount (rng : nat) : State :=
  let '(c, rng) :=
    PhotoCloud.render Math_random (App.appState App.init)
      (App.photos App.init) true PhotoCloud.init rng in
  mkState App.init c rng.

(** An event handler runs, then React renders again and runs the
    effects whose dependencies changed. *)
Definition step (w : State) (ev : Event File) : State :=
  match ev with
  | HandUpdate data now =>
      let a := App.handleHandUpdate (app w) data now in
      let '(c, rng) :=
        PhotoCloud.render Math_random (App.appState a) (App.photos a)
          false (cloud w) (rng w) in
      mkState a c rng
  | PhotoUpload files =>
      let '(a, rng) :=
        App.handlePhotoUpload File createObjectURL Math_random toString36
          (app w) files (rng w) in
      let '(c, rng) :=
        PhotoCloud.render Math_random (App.appState a) (App.photos a)
          (if files is Some _ then true else false) (cloud w) rng in
      mkState a c rng
  end.

Definition run (w : State) (evs : list (Event File)) : State :=
  fold_left step evs w.
End Run.

End World.

(** ** Ornaments.tsx: the per-frame particle update *)

Module Ornaments.

(** The arrays produced once by [useMemo]. *)
Record Layout := mkLayout {
  positionsTree : list float;
  positionsScatter : list float;
  colors : list float;
  rotations : list float;
  types : list float
}.

(** What [setMatrixAt(i, tempObject.matrix)] records for instance [i]. *)
Record Instance := mkInstance {
  position : float * float * float;
  rotation : float * float * float;
  scale : float
}.

(** [currentPositions.current] and the instance matrices of the mesh. *)
Record State := mkState {
  currentPositions : list float;
  mesh : list Instance
}.

(** Reading a typed array: an index out of range reads [undefined], which
    the arithmetic that follows turns into [NaN]. *)
Definition rd (a : list float) (i : nat) : float := default nan (a !! i).

(** The loop counter [i] used as a number. *)
Definition num (i : nat) : float := PrimFloat.of_uint63 (Uint63.of_Z (Z.of_nat i)).

Section Frame.
(** [THREE.MathUtils.damp], [Math.sin], [Math.cos], and the rounding to
    single precision of a store into a [Float32Array]. *)
Variable damp : float -> float -> float -> float -> float.
Variable Math_sin Math_cos : float -> float.
Variable fround : float -> float.

Variable L : Layout.
Variable appState : AppState.
Variables time delta : float.

(** The three damped stores of iteration [i]. *)
Definition dampInto (cur : list float) (i : nat) : list float :=
  let isTree := bool_decide (appState = TREE) in
  let tx := if isTree then rd (positionsTree L) (i * 3)
            else rd (positionsScatter L) (i * 3) in
  let ty := if isTree then rd (positionsTree L) (i * 3 + 1)
            else rd (positionsScatter L) (i * 3 + 1) in
  let tz := if isTree then rd (positionsTree L) (i * 3 + 2)
            else rd (positionsScatter L) (i * 3 + 2) in
  let lambda : float := if isTree then 12%float else 2%float in
  let cur := <[(i * 3)%nat := fround (damp (rd cur (i * 3)) tx lambda delta)]> cur in
  let cur := <[(i * 3 + 1)%nat := fround (damp (rd cur (i * 3 + 1)) ty lambda delta)]> cur in
  <[(i * 3 + 2)%nat := fround (damp (rd cur (i * 3 + 2)) tz lambda delta)]> cur.

(** The instance written by iteration [i], from the buffer as it is
    after the damped stores. *)
Definition instanceAt (cur : list float) (i : nat) : Instance :=
  let isTree := bool_decide (appState = TREE) in
  let noiseAmt : float := if isTree then 0.02%float else 0.2%float in
  let ix := (rd cur (i * 3) + Math_sin (time + num i) * noiseAmt)%float in
  let iy := (rd cur (i * 3 + 1) + Math_cos (time * 0.8 + num i) * noiseAmt)%float in
  let iz := (rd cur (i * 3 + 2) + Math_sin (time * 0.5 + num i) * noiseAmt)%float in
  mkInstance (ix, iy, iz)
    ((rd (rotations L) (i * 3) + time * 0.2)%float,
     (rd (rotations L) (i * 3 + 1) + time * 0.1)%float,
     rd (rotations L) (i * 3 + 2))
    (if (rd (types L) i =? 0)%float then 0.3%float else 0.25%float).

(** The body of [for (let i = 0; i < CONFIG.PARTICLE_COUNT; i++)]. *)
Definition body (st : State) (i : nat) : State :=
  let cur := dampInto (currentPositions st) i in
  mkState cur (<[i := instanceAt cur i]> (mesh st)).

(** The second [useFrame] callback, with the mesh mounted. *)
Definition useFrame (st : State) : State :=
  fold_left body (seq 0 CONFIG.PARTICLE_COUNT) st.
End Frame.

End Ornaments.

(** ** Exponential damping over the reals *)

Module Damping.
Open Scope R_scope.

Definition lerp (x y t : R) : R := (1 - t) * x + t * y.

(** Modelled from the spec: the damping helper the animation driver calls
    ([THREE.MathUtils.damp]) belongs to the rendering library and is not
    part of the sources; the spec describes it as the standard
    exponential decay toward a target, parameterised by the elapsed frame
    time and a rate.  Rounding is not part of this model. *)
Definition damp (x y lambda dt : R) : R :=
  lerp x y (1 - exp (- lambda * dt)).

(** Successive frames with time steps [dts], same target and rate. *)
Definition damp_frames (x y lambda : R) (dts : list R) : R :=
  fold_left (fun cur dt => damp cur y lambda dt) dts x.

Definition elapsed (dts : list R) : R := fold_right Rplus 0 dts.
End Damping.

(** ** The classifier as the specification words it *)

Module ClassifierSpec.
Import HandController.

(** The hand of the frame, when one was detected. *)
Definition detected (results : HandLandmarkerResult) : option (list Landmark) :=
  match landmarks results with
  | Some (lm :: _) => Some lm
  | _ => None
  end.

(** Its world landmarks, when available. *)
Definition world (results : HandLandmarkerResult) : option (list Landmark) :=
  match worldLandmarks results with
  | Some (wl :: _) => Some wl
  | _ => None
  end.

(** Keypoint [i] of a hand. *)
Definition keypoint (h : list Landmark) (i : nat) : Landmark :=
  default (mkLandmark nan nan nan) (h !! i).

Definition mean (ds : list float) : float :=
  (fold_left PrimFloat.add ds 0 / Ornaments.num (length ds))%float.

(** Mean distance from the four non-thumb fingertips to the wrist. *)
Definition avgFistDist (dist : Landmark -> Landmark -> float)
    (h : list Landmark) : float :=
  mean (map (fun tip => dist (keypoint h tip) (keypoint h 0)) [8; 12; 16; 20]%nat).

(** Distance from the thumb tip to the index tip. *)
Definition pinchDist (dist : Landmark -> Landmark -> float)
    (h : list Landmark) : float :=
  dist (keypoint h 4) (keypoint h 8).

(** A priority list of rules: the first rule whose condition holds gives
    the label, [NONE] when none does. *)
Fixpoint first_match (rules : list (bool * GestureType)) : GestureType :=
  match rules with
  | [] => NONE
  | (true, g) :: _ => g
  | (false, _) :: rules => first_match rules
  end.

(** Euclidean distance between two points given by their coordinates: the
    square root of the sum of the squares of the coordinate differences. *)
Definition sum_of_squares (ds : list float) : float :=
  match ds with
  | [] => 0%float
  | d :: ds => fold_left (fun acc d => acc + d * d)%float ds (d * d)%float
  end.

Definition euclidean (a b : list float) : float :=
  PrimFloat.sqrt (sum_of_squares (zip_with PrimFloat.sub a b)).

(** In space, on the three coordinates of a world landmark. *)
Definition euclidean3D (p q : Landmark) : float :=
  euclidean [lx p; ly p; lz p] [lx q; ly q; lz q].

(** On the screen, on the two coordinates of a normalised landmark. *)
Definition euclidean2D (p q : Landmark) : float :=
  euclidean [lx p; ly p] [lx q; ly q].

Definition rules3D (wl : list Landmark) : list (bool * GestureType) :=
  [ ((avgFistDist euclidean3D wl <? 0.085)%float, FIST);
    ((pinchDist euclidean3D wl <? 0.035)%float, PINCH);
    ((0.11 <? avgFistDist euclidean3D wl)%float, OPEN_HAND) ].

Definition rules2D (lm : list Landmark) : list (bool * GestureType) :=
  [ ((avgFistDist euclidean2D lm <? 0.3)%float, FIST);
    ((pinchDist euclidean2D lm <? 0.05)%float, PINCH);
    ((0.4 <? avgFistDist euclidean2D lm)%float, OPEN_HAND) ].

Definition label (results : HandLandmarkerResult) (lm : list Landmark)
    : GestureType :=
  match world results with
  | Some wl => first_match (rules3D wl)
  | None => first_match (rules2D lm)
  end.

(** A synthetic frame: wrist at the origin, the four fingertips at
    distance 0.2 from it, the thumb tip at 0.02 from the index tip. *)
Definition origin : Landmark := mkLandmark 0 0 0.
Definition tip : Landmark := mkLandmark 0.2 0 0.
Definition thumb : Landmark := mkLandmark 0.2 0.02 0.
Definition pinching_hand : list Landmark :=
  [ origin; origin; origin; origin; thumb; origin; origin; origin; tip;
    origin; origin; origin; tip; origin; origin; origin; tip; origin;
    origin; origin; tip ].
Definition pinching_frame : HandLandmarkerResult :=
  mkResult (Some [pinching_hand]) (Some [pinching_hand]).

(** A hand seen on the screen only: the fingertips at (0.3, 0.4), that is
    at 0.5 from the wrist whatever their depth, the thumb tip at (0, 0.2). *)
Definition far_tip : Landmark := mkLandmark 0.3 0.4 0.9.
Definition side_thumb : Landmark := mkLandmark 0 0.2 0.
Definition screen_hand : list Landmark :=
  [ origin; origin; origin; origin; side_thumb; origin; origin; origin;
    far_tip; origin; origin; origin; far_tip; origin; origin; origin;
    far_tip; origin; origin; origin; far_tip ].
Definition screen_frame : HandLandmarkerResult :=
  mkResult (Some [screen_hand]) None.

(** The same with the thumb tip at (0.3, 0.43), at 0.03 from the index tip. *)
Definition screen_pinch : list Landmark :=
  <[4%nat := mkLandmark 0.3 0.43 0]> screen_hand.
Definition screen_pinch_frame : HandLandmarkerResult :=
  mkResult (Some [screen_pinch]) (Some []).

(** A world hand with the fingertips at (0.03, 0.04, 0.12), that is at 0.13
    from the wrist, the thumb tip on the wrist. *)
Definition oblique_tip : Landmark := mkLandmark 0.03 0.04 0.12.
Definition oblique_hand : list Landmark :=
  [ origin; origin; origin; origin; origin; origin; origin; origin;
    oblique_tip; origin; origin; origin; oblique_tip; origin; origin; origin;
    oblique_tip; origin; origin; origin; oblique_tip ].
Definition oblique_frame : HandLandmarkerResult :=
  mkResult (Some [pinching_hand]) (Some [oblique_hand]).

(** A closed hand: every fingertip at 0.05 from the wrist. *)
Definition near : Landmark := mkLandmark 0 0.05 0.
Definition closed_hand : list Landmark :=
  [ origin; origin; origin; origin; near; origin; origin; origin; near;
    origin; origin; origin; near; origin; origin; origin; near; origin;
    origin; origin; near ].
End ClassifierSpec.

(** ** The transition rules as the specification words them *)

Module ModeSpec.

(** Rules 1, 3, 4 and 5 of the transition function: the mode a gesture
    asks for, if any. *)
Definition rule_target (mode : AppState) (g : GestureType)
    (photoCount : nat) : option AppState :=
  match g, mode with
  | FIST, SCATTERED | FIST, ZOOM => Some TREE
  | OPEN_HAND, TREE => Some SCATTERED
  | PINCH, SCATTERED => if (0 <? photoCount)%nat then Some ZOOM else None
  | OPEN_HAND, ZOOM => Some SCATTERED
  | _, _ => None
  end.

(** Number of mode changes along a sequence of poses, each with the time
    at which it arrives. *)
Fixpoint transitions (s : App.State) (poses : list (HandData * Z)) : nat :=
  match poses with
  | [] => 0
  | (data, now) :: poses =>
      let s' := App.handleHandUpdate s data now in
      ((if bool_decide (App.appState s' = App.appState s) then 0 else 1)
       + transitions s' poses)%nat
  end.

Section Trace.
Variable File : Type.
Variable createObjectURL : File -> string.
Variable Math_random : nat -> float.
Variable toString36 : float -> string.

(** Time of the last mode change made by a gesture along a run of
    events ([t] when there is none). *)
Fixpoint last_gesture_transition (w : World.State)
    (evs : list (World.Event File)) (t : Z) : Z :=
  match evs with
  | [] => t
  | ev :: evs =>
      let w' := World.step File createObjectURL Math_random toString36 w ev in
      let t' :=
        match ev with
        | World.HandUpdate _ now =>
            if bool_decide (App.appState (World.app w')
                            = App.appState (World.app w))
            then t else now
        | World.PhotoUpload _ => t
        end in
      last_gesture_transition w' evs t'
  end.
End Trace.

Definition pose (g : GestureType) : HandData := mkHandData g 0.5 0.5 0 0.
Definition a_photo : PhotoData := mkPhotoData "k3x9q0z1a" "blob:1" 1.

(** The state after a sequence of poses. *)
Definition after_poses (s : App.State) (poses : list (HandData * Z)) : App.State :=
  fold_left (fun s p => App.handleHandUpdate s (fst p) (snd p)) poses s.

(** "Two OPEN_HAND events 100 ms apart starting in TREE produce exactly one
    transition", for the states the application can be in. *)
Definition two_open_hands_one_transition : Prop :=
  forall (poses : list (HandData * Z)) (d1 d2 : HandData) (t : Z),
    let s := after_poses App.init poses in
    App.appState s = TREE ->
    gesture d1 = OPEN_HAND -> gesture d2 = OPEN_HAND ->
    transitions s [(d1, t); (d2, t + 100)] = 1%nat.

(** An open hand, then a fist 100 ms later: back in TREE, with the clock
    at the time of the fist. *)
Definition open_then_fist : list (HandData * Z) :=
  [(pose OPEN_HAND, 7000); (pose FIST, 7100)].
End ModeSpec.

(** ** The zoom selection as the specification words it *)

Module SelectionSpec.

Section Selection.
Variable File : Type.
Variable createObjectURL : File -> string.
Variable Math_random : nat -> float.
Variable toString36 : float -> string.

Definition mode (w : World.State) : AppState := App.appState (World.app w).
Definition count (w : World.State) : nat := length (App.photos (World.app w)).
Definition selection (w : World.State) : float :=
  PhotoCloud.activePhotoIndex (World.cloud w).

(** The worlds the application can be in: after the first render and any
    run of events. *)
Definition reachable (w : World.State) : Prop :=
  exists (rng : nat) (evs : list (World.Event File)),
    w = World.run File createObjectURL Math_random toString36
          (World.mount Math_random rng) evs.

(** "Mutated only on entry into ZOOM and cleared on exit": an event that
    neither enters nor leaves ZOOM keeps the selection. *)
Definition changes_only_at_zoom_boundary : Prop :=
  forall (w : World.State) (ev : World.Event File),
    reachable w ->
    let w' := World.step File createObjectURL Math_random toString36 w ev in
    ~ (mode w <> ZOOM /\ mode w' = ZOOM) ->
    ~ (mode w = ZOOM /\ mode w' <> ZOOM) ->
    selection w' = selection w.

(** What holds between events: the effect has run for the current mode and
    photo count, and the selection is none outside ZOOM. *)
Definition settled (w : World.State) : Prop :=
  PhotoCloud.deps (World.cloud w) = Some (mode w, count w)
  /\ (mode w <> ZOOM -> selection w = (-1)%float).
End Selection.

(** An oracle whose draws are all 0.75: the first pick among one photo is
    photo 0, the next pick among two photos is photo 1. *)
Definition three_quarters : nat -> float := fun _ => 0.75%float.
Definition blob : unit -> string := fun _ => "blob:0"%string.
Definition ident : float -> string := fun _ => "r"%string.

(** One photo is uploaded, then a pinch zooms on it. *)
Definition to_zoom : list (World.Event unit) :=
  [ World.PhotoUpload (Some [tt]);
    World.HandUpdate (mkHandData PINCH 0.5 0.5 0 0) 1000 ].
Definition zoomed : World.State :=
  World.run unit blob three_quarters ident
    (World.mount three_quarters 0) to_zoom.
(** A second photo is uploaded during the zoom. *)
Definition one_more : World.Event unit := World.PhotoUpload (Some [tt]).

End SelectionSpec.

(** ** The particle update as the specification words it *)

Module OrnamentsSpec.
Import Ornaments.

(** Coordinate [j] of the mode-dependent target layout. *)
Definition target (L : Layout) (mode : AppState) (j : nat) : float :=
  rd (if bool_decide (mode = TREE) then positionsTree L else positionsScatter L) j.

Definition rate (mode : AppState) : float :=
  if bool_decide (mode = TREE) then 12%float else 2%float.

Definition amplitude (mode : AppState) : float :=
  if bool_decide (mode = TREE) then 0.02%float else 0.2%float.

Section Damped.
Variable damp : float -> float -> float -> float -> float.
Variable fround : float -> float.
Variable L : Layout.
Variable mode : AppState.
Variable delta : float.

(** The buffer with the coordinates of its first [n] particles damped
    toward their targets, the others untouched. *)
Definition damped (n : nat) (old : list float) : list float :=
  imap (fun j v => if (j <? 3 * n)%nat
                   then fround (damp v (target L mode j) (rate mode) delta)
                   else v) old.
End Damped.

(** A frame to run the update on: a stand-in for the damping helper that
    moves half of the way, constant jitter sources, no rounding. *)
Definition halfway (x y lambda dt : float) : float := ((x + y) / 2)%float.
Definition one (t : float) : float := 1%float.
Definition flat : Layout :=
  mkLayout (replicate 450 4%float) (replicate 450 8%float)
           (replicate 450 1%float) (replicate 450 0%float)
           (replicate 150 0%float).
Definition at_rest : State :=
  mkState (replicate 450 4%float)
          (replicate 150 (mkInstance (0, 0, 0) (0, 0, 0) 1)%float).
End OrnamentsSpec.

(** ** HandController.tsx: the detection loop *)

Module Pipeline.
Import HandController.

(** The refs and state of [HandController] that [predict] reads or writes:
    [isComponentMounted], whether the video and the landmarker are ready
    ([videoRef.current && handLandmarkerRef.current && readyState >= 2]),
    and the [debugGesture] cell ([None] is the initial empty string). *)
Record Tracker := mkTracker {
  isComponentMounted : bool;
  ready : bool;
  debugGesture : option GestureType
}.

(** [processResults] with its two effects: [setDebugGesture(gesture)] and
    the call of the latest [onHandUpdate]; [None] when the body throws
    before reaching them. *)
Definition process (tr : Tracker) (s : App.State)
    (results : HandLandmarkerResult) (now : Z) : option (Tracker * App.State) :=
  hd ← processResults results;
  Some (mkTracker (isComponentMounted tr) (ready tr) (Some (gesture hd)),
        App.handleHandUpdate s hd now).

(** One turn of [predict].  [detection] is the outcome of [detectForVideo]
    ([None] when it throws); the [try / catch] keeps the state as it was
    when anything inside throws.  The boolean tells whether the next turn
    was requested with [requestAnimationFrame]. *)
Definition predict (tr : Tracker) (s : App.State)
    (detection : option HandLandmarkerResult) (now : Z)
    : Tracker * App.State * bool :=
  if negb (isComponentMounted tr) then (tr, s, false)
  else
    let '(tr', s') :=
      if ready tr then
        match detection with
        | Some results => default (tr, s) (process tr s results now)
        | None => (tr, s)
        end
      else (tr, s) in
    (tr', s', true).
End Pipeline.

(** ** PhotoCloud.tsx: layout and per-frame targets of the photos *)

Module PhotoLayout.

Definition Vector3 : Type := float * float * float.

(** An entry of the memoised [positions] array. *)
Record Position := mkPosition {
  tree : Vector3;
  scatter : Vector3;
  rotation : Vector3
}.

(** What the easing calls of one frame are given for one photo
    ([targetOpacity] is used when the child has a material). *)
Record Target := mkTarget {
  targetPos : Vector3;
  targetRot : Vector3;
  scaleX : float;
  scaleY : float;
  smoothTime : float;
  targetOpacity : float
}.

Definition PI : float := 3.141592653589793%float.

(** [Math.max(n, 1)] for an array length [n]. *)
Definition max1 (n : float) : float := if (n <? 1)%float then 1%float else n.

(** [v || 1]: zero and NaN are falsy. *)
Definition or1 (v : float) : float :=
  if (v =? 0)%float || PrimFloat.is_nan v then 1%float else v.

Section Layout.
Variable Math_sin Math_cos : float -> float.
(** [Math_random k] is the value of the [k]-th call of [Math.random()]
    made by these sources. *)
Variable Math_random : nat -> float.

(** The [useMemo] over [photos]; photo [i] takes draws [rng + 3 i] to
    [rng + 3 i + 2]. *)
Definition positions (rng : nat) (photos : list PhotoData) : list Position :=
  imap (fun i _ =>
    let t := ((Ornaments.num i + 0.5) / max1 (Ornaments.num (length photos)))%float in
    let angle := (t * PI * 10)%float in
    let rTree := ((1 - t) * (CONFIG.TREE_RADIUS_BOTTOM + 1))%float in
    let xTree := (Math_cos angle * rTree)%float in
    let zTree := (Math_sin angle * rTree)%float in
    let yTree := (t * CONFIG.TREE_HEIGHT - CONFIG.TREE_HEIGHT / 2)%float in
    let rScatter := (CONFIG.SCATTER_RADIUS * 0.8)%float in
    let xScatter := ((Math_random (rng + 3 * i) - 0.5) * rScatter * 2)%float in
    let yScatter := ((Math_random (rng + 3 * i + 1) - 0.5) * rScatter * 2)%float in
    let zScatter := ((Math_random (rng + 3 * i + 2) - 0.5) * rScatter * 1.5)%float in
    mkPosition (xTree, yTree, zTree) (xScatter, yScatter, zScatter)
               (0, - angle, 0)%float) photos.
End Layout.

(** [appState === AppState.ZOOM && activePhotoIndex === i] *)
Definition isZoomed (appState : AppState) (activePhotoIndex : float) (i : nat) : bool :=
  bool_decide (appState = ZOOM) && (activePhotoIndex =? JSMath.of_nat i)%float.

(** The callback of [children.forEach] up to its easing calls, for child
    [i]: [None] when the child is skipped ([positions[i]] missing; the
    photo array has the same length). *)
Definition frameTarget (appState : AppState) (activePhotoIndex : float)
    (positions : list Position) (photos : list PhotoData) (i : nat)
    : option Target :=
  p ← positions !! i;
  photo ← photos !! i;
  let zoomed := isZoomed appState activePhotoIndex i in
  let isTree := bool_decide (appState = TREE) in
  let targetPos := if isTree then tree p else scatter p in
  let targetRot := if isTree then rotation p else (0, 0, 0)%float in
  let targetScale : float := 1.5%float in
  let '(targetPos, targetRot, targetScale) :=
    if zoomed then ((0, 0, 12)%float, (0, 0, 0)%float, 8%float)
    else (targetPos, targetRot, targetScale) in
  let smoothTime : float := if isTree then 0.15%float else 0.6%float in
  let targetOpacity : float :=
    if bool_decide (appState = ZOOM) && negb zoomed then 0.1%float else 1%float in
  Some (mkTarget targetPos targetRot
                 (targetScale * or1 (aspectRatio photo))%float targetScale
                 smoothTime targetOpacity).
End PhotoLayout.

(** ** Runs of the particle update *)

Module OrnamentsRun.
Import Ornaments.

(** What varies from one rendered frame to the next. *)
Record Tick := mkTick {
  tick_mode : AppState;
  tick_time : float;
  tick_delta : float
}.

Section Frames.
Variable damp : float -> float -> float -> float -> float.
Variable Math_sin Math_cos : float -> float.
Variable fround : float -> float.
Variable L : Layout.

(** The render loop calling the frame callback once per tick. *)
Definition frames (ticks : list Tick) (st : State) : State :=
  fold_left (fun st k =>
               useFrame damp Math_sin Math_cos fround L (tick_mode k)
                 (tick_time k) (tick_delta k) st) ticks st.

(** The damping passes alone. *)
Definition damped_by (ticks : list Tick) (old : list float) : list float :=
  fold_left (fun cur k =>
               OrnamentsSpec.damped damp fround L (tick_mode k) (tick_delta k)
                 CONFIG.PARTICLE_COUNT cur) ticks old.
End Frames.
End OrnamentsRun.

(** ** Measurements that are not numbers *)

Module Measurements.
Import HandController.

(** A keypoint with a coordinate that is NaN. *)
Definition broken (p : Landmark) : Prop :=
  lx p = nan \/ ly p = nan \/ lz p = nan.

(** The pinching hand with the abscissa of its wrist lost. *)
Definition lost_wrist : list Landmark :=
  <[0%nat := mkLandmark nan 0 0]> ClassifierSpec.pinching_hand.
Definition lost_wrist_frame : HandLandmarkerResult :=
  mkResult (Some [ClassifierSpec.pinching_hand]) (Some [lost_wrist]).
End Measurements.

(** ** The transition graph *)

Module Graph.
(** The arrows of the mode diagram. *)
Definition edge (m m' : AppState) : bool :=
  match m, m' with
  | TREE, SCATTERED | SCATTERED, TREE | SCATTERED, ZOOM
  | ZOOM, TREE | ZOOM, SCATTERED => true
  | _, _ => false
  end.
End Graph.

(** * Properties *)

(** ** The floor of a product *)

(** The product is rounded to binary64 before the floor is taken: two
    thirds of three (as the nearest double below 2/3) is exactly 2. *)
Example Math_floor_rounded_product :
  JSMath.Math_floor (0.6666666666666666 * 3)%float = 2%float
  /\ JSMath.Math_floor (0.75 * 2)%float = 1%float
  /\ JSMath.Math_floor (0.75 * 1)%float = 0%float
  /\ JSMath.Math_floor (-0.5)%float = (-1)%float
  /\ JSMath.Math_floor 123456.789%float = 123456%float.
Proof. vm_compute. repeat split; reflexivity. Qed.

(** ** Gesture classifier *)

Section Classifier.
Import HandController ClassifierSpec.

Lemma hand_21 (h : list Landmark) :
  length h = 21%nat ->
  exists p0 p1 p2 p3 p4 p5 p6 p7 p8 p9 p10 p11 p12 p13 p14 p15 p16 p17 p18
         p19 p20,
    h = [p0; p1; p2; p3; p4; p5; p6; p7; p8; p9; p10; p11; p12; p13; p14;
         p15; p16; p17; p18; p19; p20].
Proof.
  intros Hlen.
  do 21 (destruct h as [|? h]; [discriminate Hlen|]).
  destruct h; [|discriminate Hlen].
  repeat eexists.
Qed.

Lemma cascade_first_match (a p fistT pinchT openT : float) :
  cascade a p fistT pinchT openT =
  first_match [ ((a <? fistT)%float, FIST); ((p <? pinchT)%float, PINCH);
                ((openT <? a)%float, OPEN_HAND) ].
Proof.
  unfold cascade; simpl.
  destruct (a <? fistT)%float, (p <? pinchT)%float, (openT <? a)%float;
    reflexivity.
Qed.

Lemma gesture3D_label (wl : list Landmark) :
  length wl = 21%nat -> gesture3D wl = Some (first_match (rules3D wl)).
Proof.
  intros Hlen. destruct (hand_21 wl Hlen) as (p0 & p1 & p2 & p3 & p4 & p5 &
    p6 & p7 & p8 & p9 & p10 & p11 & p12 & p13 & p14 & p15 & p16 & p17 & p18 &
    p19 & p20 & ->).
  unfold gesture3D, rules3D; cbn [at_ lookup list_lookup mbind option_bind].
  rewrite cascade_first_match. reflexivity.
Qed.

Lemma gesture2D_label (lm : list Landmark) (wrist : Landmark) :
  length lm = 21%nat -> lm !! 0%nat = Some wrist ->
  gesture2D lm wrist = Some (first_match (rules2D lm)).
Proof.
  intros Hlen Hw. destruct (hand_21 lm Hlen) as (p0 & p1 & p2 & p3 & p4 & p5 &
    p6 & p7 & p8 & p9 & p10 & p11 & p12 & p13 & p14 & p15 & p16 & p17 & p18 &
    p19 & p20 & ->).
  injection Hw as <-.
  unfold gesture2D, rules2D; cbn [at_ lookup list_lookup mbind option_bind].
  rewrite cascade_first_match. reflexivity.
Qed.

Example closed_hand_is_fist :
  gesture <$> processResults (mkResult (Some [closed_hand]) (Some [closed_hand]))
  = Some FIST.
Proof. vm_compute. reflexivity. Qed.

Example short_hand_throws :
  processResults (mkResult (Some [[origin; origin]]) None) = None.
Proof. reflexivity. Qed.

(** The distance helpers of the classifier compute the Euclidean distance,
    in space and on the screen. *)
Lemma dist3D_euclidean (p q : Landmark) : dist3D p q = euclidean3D p q.
Proof. reflexivity. Qed.

Lemma dist2D_euclidean (p q : Landmark) : dist2D p q = euclidean2D p q.
Proof. reflexivity. Qed.

(** C1. For a frame with a detected hand (21 keypoints, as the tracker
    delivers them), the classifier returns a pose whose gesture is the
    first matching rule of the priority list: on the world landmarks when
    they are available, FIST if the mean Euclidean distance in space from
    the four fingertips to the wrist is below 0.085, else PINCH if the
    distance from thumb tip to index tip is below 0.035, else OPEN_HAND if
    the mean distance exceeds 0.11, else NONE; on the screen landmarks
    otherwise, with the Euclidean distance on the screen and thresholds
    0.3, 0.05 and 0.4.  The frame with mean distance 0.2 and thumb-to-index
    distance 0.02 is classified PINCH; a world hand with fingertips at 0.13
    is OPEN_HAND; a hand seen on the screen only with fingertips at 0.5 is
    OPEN_HAND, and PINCH once its thumb tip is at 0.03 from the index tip. *)
Theorem processResults_priority :
  (forall (results : HandLandmarkerResult) (lm : list Landmark),
      detected results = Some lm ->
      length lm = 21%nat ->
      (forall wl, world results = Some wl -> length wl = 21%nat) ->
      exists hd, processResults results = Some hd
                 /\ gesture hd = label results lm)
  /\ (avgFistDist euclidean3D pinching_hand = 0.2%float
      /\ pinchDist euclidean3D pinching_hand = 0.02%float
      /\ detected pinching_frame = Some pinching_hand
      /\ world pinching_frame = Some pinching_hand
      /\ label pinching_frame pinching_hand = PINCH
      /\ gesture <$> processResults pinching_frame = Some PINCH)
  /\ (avgFistDist euclidean3D oblique_hand = 0.13%float
      /\ pinchDist euclidean3D oblique_hand = 0.13%float
      /\ world oblique_frame = Some oblique_hand
      /\ gesture <$> processResults oblique_frame = Some OPEN_HAND)
  /\ (avgFistDist euclidean2D screen_hand = 0.5%float
      /\ (pinchDist euclidean2D screen_hand <? 0.05)%float = false
      /\ world screen_frame = None
      /\ label screen_frame screen_hand = OPEN_HAND
      /\ gesture <$> processResults screen_frame = Some OPEN_HAND)
  /\ (avgFistDist euclidean2D screen_pinch = 0.5%float
      /\ (pinchDist euclidean2D screen_pinch <? 0.05)%float = true
      /\ world screen_pinch_frame = None
      /\ label screen_pinch_frame screen_pinch = PINCH
      /\ gesture <$> processResults screen_pinch_frame = Some PINCH).
Proof.
  split; [|vm_compute; repeat split; reflexivity].
  intros [l w] lm Hd Hlm Hw. unfold detected in Hd; simpl in Hd.
  destruct l as [[|lm' lms]|]; try discriminate. injection Hd as ->.
  unfold processResults, label, world in *; simpl in *.
  destruct (hand_21 lm Hlm) as (p0 & p1 & p2 & p3 & p4 & p5 &
    p6 & p7 & p8 & p9 & p10 & p11 & p12 & p13 & p14 & p15 & p16 & p17 & p18 &
    p19 & p20 & E).
  assert (H2D : gesture2D lm p0 = Some (first_match (rules2D lm)))
    by (apply gesture2D_label; [exact Hlm | rewrite E; reflexivity]).
  assert (H0 : at_ lm 0 = Some p0) by (rewrite E; reflexivity).
  assert (H5 : at_ lm 5 = Some p5) by (rewrite E; reflexivity).
  assert (H17 : at_ lm 17 = Some p17) by (rewrite E; reflexivity).
  rewrite H0, H5, H17; cbn [mbind option_bind].
  destruct w as [[|wl wls]|].
  - rewrite H2D. eexists; split; reflexivity.
  - rewrite gesture3D_label by (apply Hw; reflexivity).
    eexists; split; reflexivity.
  - rewrite H2D. eexists; split; reflexivity.
Qed.

Lemma processResults_priority_witness :
  (exists hd, processResults pinching_frame = Some hd
              /\ gesture hd = label pinching_frame pinching_hand)
  /\ (exists hd, processResults screen_frame = Some hd
                 /\ gesture hd = label screen_frame screen_hand).
Proof.
  split.
  - apply (proj1 processResults_priority pinching_frame pinching_hand).
    + reflexivity.
    + reflexivity.
    + intros wl H. injection H as <-. reflexivity.
  - apply (proj1 processResults_priority screen_frame screen_hand).
    + reflexivity.
    + reflexivity.
    + intros wl H. discriminate H.
Defined.

(** C6. A frame in which no hand is detected is classified NONE with the
    neutral pose x = 0.5, y = 0.5, tiltX = 0, tiltY = 0. *)
Theorem processResults_no_hand (results : HandLandmarkerResult) :
  detected results = None ->
  processResults results = Some (mkHandData NONE 0.5 0.5 0 0).
Proof.
  unfold detected, processResults.
  destruct (landmarks results) as [[|lm lms]|]; [reflexivity|discriminate|reflexivity].
Qed.

Lemma processResults_no_hand_witness :
  processResults (mkResult (Some []) (Some [pinching_hand]))
  = Some (mkHandData NONE 0.5 0.5 0 0).
Proof. apply processResults_no_hand. reflexivity. Defined.
End Classifier.

(** ** Mode state machine *)

Section ModeStateMachine.
Import App ModeSpec.

Ltac hhu :=
  unfold handleHandUpdate, transition, setHandData; simpl;
  repeat (case_bool_decide; simpl);
  repeat (case_match; simpl);
  try congruence; try lia.

(** The handler is the transition table behind the FIST rule and the
    debounce gate. *)
Lemma handleHandUpdate_rules (s : State) (data : HandData) (now : Z) :
  handleHandUpdate s data now =
  match rule_target (appState s) (gesture data) (length (photos s)) with
  | Some m =>
      if bool_decide (gesture data = FIST)
         || negb (now - lastStateChange s <? 500)
      then mkState m (photos s) data now
      else setHandData data s
  | None => setHandData data s
  end.
Proof.
  destruct s as [m ps hd t], data as [g px py tx ty]; simpl.
  destruct g, m; hhu.
Qed.

(** C2. With gesture FIST, a mode other than TREE becomes TREE and the
    clock is set to now, whatever the time since the last transition and
    without any later rule being applied; in TREE the mode and the clock
    stay as they are. *)
Theorem fist_rule (s : State) (data : HandData) (now : Z) :
  gesture data = FIST ->
  (appState s <> TREE ->
     handleHandUpdate s data now = mkState TREE (photos s) data now)
  /\ (appState s = TREE ->
        appState (handleHandUpdate s data now) = TREE
        /\ lastStateChange (handleHandUpdate s data now) = lastStateChange s).
Proof.
  intros Hg. rewrite handleHandUpdate_rules, Hg.
  destruct s as [m ps hd t]; simpl.
  split; intros Hm; destruct m; simpl; try congruence; auto.
Qed.

Lemma fist_rule_witness :
  handleHandUpdate (mkState ZOOM [] (pose NONE) 1000) (pose FIST) 1001
  = mkState TREE [] (pose FIST) 1001
  /\ appState (handleHandUpdate (mkState TREE [] (pose NONE) 1000) (pose FIST) 5000) = TREE
  /\ lastStateChange (handleHandUpdate (mkState TREE [] (pose NONE) 1000) (pose FIST) 5000) = 1000.
Proof.
  split.
  - apply (fist_rule (mkState ZOOM [] (pose NONE) 1000) (pose FIST) 1001);
      [reflexivity | discriminate].
  - apply (fist_rule (mkState TREE [] (pose NONE) 1000) (pose FIST) 5000);
      reflexivity.
Defined.

(** C3. When the FIST rule does not fire and less than 500 ms have passed
    since the last transition, the call changes neither the mode nor the
    clock; hence of two OPEN_HAND poses 100 ms apart, received in TREE
    with the gate open, only the first makes a transition (to SCATTERED). *)
Theorem debounce_gate :
  (forall (s : State) (data : HandData) (now : Z),
      ~ (gesture data = FIST /\ appState s <> TREE) ->
      now - lastStateChange s < 500 ->
      appState (handleHandUpdate s data now) = appState s
      /\ lastStateChange (handleHandUpdate s data now) = lastStateChange s)
  /\ (forall (s : State) (d1 d2 : HandData) (t : Z),
        appState s = TREE ->
        gesture d1 = OPEN_HAND -> gesture d2 = OPEN_HAND ->
        500 <= t - lastStateChange s ->
        let s1 := handleHandUpdate s d1 t in
        let s2 := handleHandUpdate s1 d2 (t + 100) in
        appState s1 = SCATTERED /\ lastStateChange s1 = t
        /\ appState s2 = SCATTERED /\ lastStateChange s2 = t
        /\ transitions s [(d1, t); (d2, t + 100)] = 1%nat).
Proof.
  split.
  - intros [m ps hd t] [g px py tx ty] now Hf Hgate; simpl in *.
    rewrite handleHandUpdate_rules; simpl.
    destruct (Z.ltb_spec (now - t) 500); [|lia].
    destruct g, m; simpl; auto; try (case_match; simpl; auto);
      exfalso; apply Hf; split; congruence.
  - intros [m ps hd t0] [g1 px1 py1 tx1 ty1] [g2 px2 py2 tx2 ty2] t;
      simpl; intros -> -> -> Hgate.
    assert (E1 : handleHandUpdate (mkState TREE ps hd t0)
                   (mkHandData OPEN_HAND px1 py1 tx1 ty1) t
                 = mkState SCATTERED ps (mkHandData OPEN_HAND px1 py1 tx1 ty1) t).
    { rewrite handleHandUpdate_rules; simpl.
      destruct (Z.ltb_spec (t - t0) 500); [lia|reflexivity]. }
    assert (E2 : handleHandUpdate
                   (mkState SCATTERED ps (mkHandData OPEN_HAND px1 py1 tx1 ty1) t)
                   (mkHandData OPEN_HAND px2 py2 tx2 ty2) (t + 100)
                 = mkState SCATTERED ps (mkHandData OPEN_HAND px2 py2 tx2 ty2) t).
    { rewrite handleHandUpdate_rules; reflexivity. }
    unfold transitions. rewrite E1, E2. repeat split; reflexivity.
Qed.

Lemma debounce_gate_witness :
  (appState (handleHandUpdate (mkState TREE [] (pose NONE) 1000) (pose OPEN_HAND) 1100) = TREE
   /\ lastStateChange (handleHandUpdate (mkState TREE [] (pose NONE) 1000) (pose OPEN_HAND) 1100) = 1000)
  /\ transitions init [(pose OPEN_HAND, 7000); (pose OPEN_HAND, 7000 + 100)] = 1%nat.
Proof.
  split.
  - apply (proj1 debounce_gate (mkState TREE [] (pose NONE) 1000)
             (pose OPEN_HAND) 1100).
    + intros [H _]; discriminate H.
    + simpl; lia.
  - apply (proj2 debounce_gate init (pose OPEN_HAND) (pose OPEN_HAND) 7000);
      try reflexivity.
    simpl; lia.
Defined.
(** C3, as stated, fails: after an open hand and a fist 100 ms later the
    application is in TREE with the gate closed, and two OPEN_HAND poses
    100 ms apart received then make no transition at all. *)
Lemma two_open_hands_after_fist : ~ two_open_hands_one_transition.
Proof.
  intros H.
  specialize (H open_then_fist (pose OPEN_HAND) (pose OPEN_HAND) 7200
                eq_refl eq_refl eq_refl).
  vm_compute in H. discriminate H.
Qed.

Example two_open_hands_600ms_apart :
  transitions init [(pose OPEN_HAND, 7000); (pose OPEN_HAND, 7600)] = 1%nat
  /\ appState (handleHandUpdate
                 (handleHandUpdate init (pose OPEN_HAND) 7000)
                 (pose OPEN_HAND) 7600) = SCATTERED.
Proof. split; reflexivity. Qed.
End ModeStateMachine.

Section PinchRule.
Import App ModeSpec.

(** C4. With gesture PINCH in SCATTERED once the debounce window has
    elapsed: with at least one photo the mode becomes ZOOM and the clock
    is set to now; with no photo the call returns normally and leaves the
    mode and the clock as they were. *)
Theorem pinch_rule (s : State) (data : HandData) (now : Z) :
  gesture data = PINCH ->
  appState s = SCATTERED ->
  500 <= now - lastStateChange s ->
  ((0 < length (photos s))%nat ->
     handleHandUpdate s data now = mkState ZOOM (photos s) data now)
  /\ (length (photos s) = 0%nat ->
        handleHandUpdate s data now
        = mkState SCATTERED (photos s) data (lastStateChange s)).
Proof.
  intros Hg Hm Hgate. rewrite handleHandUpdate_rules, Hg, Hm; simpl.
  destruct (Z.ltb_spec (now - lastStateChange s) 500); [lia|]; simpl.
  unfold setHandData; rewrite Hm.
  split; intros Hn.
  - destruct (Nat.ltb_spec 0 (length (photos s))); [reflexivity|lia].
  - rewrite Hn; reflexivity.
Qed.

Lemma pinch_rule_witness :
  handleHandUpdate (mkState SCATTERED [a_photo] (pose NONE) 0) (pose PINCH) 500
  = mkState ZOOM [a_photo] (pose PINCH) 500
  /\ handleHandUpdate (mkState SCATTERED [] (pose NONE) 0) (pose PINCH) 500
     = mkState SCATTERED [] (pose PINCH) 0.
Proof.
  split.
  - apply (pinch_rule (mkState SCATTERED [a_photo] (pose NONE) 0) (pose PINCH) 500);
      simpl; try reflexivity; lia.
  - apply (pinch_rule (mkState SCATTERED [] (pose NONE) 0) (pose PINCH) 500);
      simpl; try reflexivity; lia.
Defined.
End PinchRule.

(** ** Photo upload *)

Section PhotoUpload.
Import App ModeSpec.

Variable File : Type.
Variable createObjectURL : File -> string.
Variable Math_random : nat -> float.
Variable toString36 : float -> string.

Abbreviation upload := (handlePhotoUpload File createObjectURL Math_random toString36).
Abbreviation step := (World.step File createObjectURL Math_random toString36).
Abbreviation run := (World.run File createObjectURL Math_random toString36).

Lemma newPhotos_length (rng : nat) (fs : list File) :
  length (newPhotos File createObjectURL Math_random toString36 rng fs)
  = length fs.
Proof. unfold newPhotos. apply length_imap. Qed.

(** C5. Adding photos in TREE sets the mode to SCATTERED in the same
    operation, the last pose playing no part; in SCATTERED or ZOOM the
    mode stays; the photos are appended.  Three photos added to the
    initial state give mode SCATTERED and three photos. *)
Theorem upload_nudge :
  (forall (s : State) (fs : list File) (rng : nat),
      let s' := fst (upload s (Some fs) rng) in
      (appState s = TREE -> appState s' = SCATTERED)
      /\ (appState s <> TREE -> appState s' = appState s)
      /\ length (photos s') = (length (photos s) + length fs)%nat
      /\ handData s' = handData s)
  /\ (forall (f1 f2 f3 : File) (rng : nat),
        let s' := fst (upload init (Some [f1; f2; f3]) rng) in
        appState s' = SCATTERED /\ length (photos s') = 3%nat).
Proof.
  split.
  - intros [m ps hd t] fs rng; simpl.
    rewrite length_app, newPhotos_length.
    repeat split; intros; case_bool_decide; congruence.
  - intros; simpl. split; reflexivity.
Qed.

(** The handler after an upload, seen from the world. *)
Lemma step_app_HandUpdate (w : World.State) (data : HandData) (now : Z) :
  World.app (step w (World.HandUpdate data now))
  = handleHandUpdate (World.app w) data now.
Proof. unfold World.step. case_match. reflexivity. Qed.

Lemma step_app_PhotoUpload (w : World.State) (files : option (list File)) :
  World.app (step w (World.PhotoUpload files))
  = fst (upload (World.app w) files (World.rng w)).
Proof.
  unfold World.step.
  destruct (upload (World.app w) files (World.rng w)) as [a r].
  case_match. reflexivity.
Qed.

Lemma handleHandUpdate_clock (s : State) (data : HandData) (now : Z) :
  lastStateChange (handleHandUpdate s data now)
  = if bool_decide (appState (handleHandUpdate s data now) = appState s)
    then lastStateChange s else now.
Proof.
  rewrite handleHandUpdate_rules.
  destruct s as [m ps hd t], data as [g px py tx ty]; simpl.
  destruct g, m; simpl; repeat (case_match; simpl); try reflexivity;
    case_bool_decide; congruence.
Qed.

Lemma upload_clock (s : State) (files : option (list File)) (rng : nat) :
  lastStateChange (fst (upload s files rng)) = lastStateChange s.
Proof. destruct files; reflexivity. Qed.

Lemma run_clock (evs : list (World.Event File)) :
  forall w : World.State,
    lastStateChange (World.app (run w evs))
    = last_gesture_transition File createObjectURL Math_random toString36
        w evs (lastStateChange (World.app w)).
Proof.
  induction evs as [|ev evs IH]; intros w; [reflexivity|].
  unfold World.run in *; cbn [fold_left last_gesture_transition].
  rewrite IH. f_equal.
  destruct ev as [data now|files].
  - rewrite step_app_HandUpdate. apply handleHandUpdate_clock.
  - rewrite step_app_PhotoUpload. apply upload_clock.
Qed.

(** C10. An upload leaves the clock untouched, so along every run the
    clock is the time of the last transition made by a gesture; a pose
    that arrives after an upload, 500 ms or more after that time, has its
    rule applied to the mode the upload left. *)
Theorem upload_keeps_clock :
  (forall (s : State) (files : option (list File)) (rng : nat),
      lastStateChange (fst (upload s files rng)) = lastStateChange s)
  /\ (forall (w : World.State) (evs : list (World.Event File)),
        lastStateChange (World.app (run w evs))
        = last_gesture_transition File createObjectURL Math_random toString36
            w evs (lastStateChange (World.app w)))
  /\ (forall (s : State) (files : option (list File)) (rng : nat)
             (data : HandData) (now : Z),
        500 <= now - lastStateChange s ->
        let s1 := fst (upload s files rng) in
        handleHandUpdate s1 data now
        = match rule_target (appState s1) (gesture data) (length (photos s1)) with
          | Some m => mkState m (photos s1) data now
          | None => setHandData data s1
          end).
Proof.
  split; [exact upload_clock|].
  split; [intros w evs; apply run_clock|].
  intros s files rng data now Hgate s1.
  rewrite handleHandUpdate_rules. subst s1.
  rewrite upload_clock.
  destruct (Z.ltb_spec (now - lastStateChange s) 500); [lia|].
  rewrite orb_true_r. reflexivity.
Qed.
End PhotoUpload.

Lemma upload_nudge_witness :
  let up := App.handlePhotoUpload nat (fun _ => "blob:0"%string)
              (fun _ => 0%float) (fun _ => "0"%string) in
  App.appState (fst (up App.init (Some [1; 2; 3]%nat) 0%nat)) = SCATTERED
  /\ App.appState (fst (up (App.mkState ZOOM [] (ModeSpec.pose NONE) 0)
                          (Some [1]%nat) 0%nat)) = ZOOM.
Proof.
  split.
  - apply (proj1 (upload_nudge nat (fun _ => "blob:0"%string)
                    (fun _ => 0%float) (fun _ => "0"%string))
             App.init [1; 2; 3]%nat 0%nat).
    reflexivity.
  - apply (proj1 (upload_nudge nat (fun _ => "blob:0"%string)
                    (fun _ => 0%float) (fun _ => "0"%string))
             (App.mkState ZOOM [] (ModeSpec.pose NONE) 0) [1]%nat 0%nat).
    discriminate.
Defined.

Lemma upload_keeps_clock_witness :
  let up := App.handlePhotoUpload nat (fun _ => "blob:0"%string)
              (fun _ => 0%float) (fun _ => "0"%string) in
  App.handleHandUpdate (fst (up (App.mkState TREE [] (ModeSpec.pose NONE) 1000)
                                (Some [7]%nat) 0%nat))
    (ModeSpec.pose PINCH) 1500
  = App.mkState ZOOM [mkPhotoData "0" "blob:0" 1] (ModeSpec.pose PINCH) 1500.
Proof.
  apply (proj2 (proj2 (upload_keeps_clock nat (fun _ => "blob:0"%string)
                         (fun _ => 0%float) (fun _ => "0"%string)))
           (App.mkState TREE [] (ModeSpec.pose NONE) 1000) (Some [7]%nat) 0%nat
           (ModeSpec.pose PINCH) 1500).
  simpl; lia.
Defined.

(** ** Zoom selection *)

Section ZoomSelection.
Import SelectionSpec.

Variable File : Type.
Variable createObjectURL : File -> string.
Variable Math_random : nat -> float.
Variable toString36 : float -> string.

Abbreviation upload := (App.handlePhotoUpload File createObjectURL Math_random toString36).
Abbreviation step := (World.step File createObjectURL Math_random toString36).
Abbreviation run := (World.run File createObjectURL Math_random toString36).
Abbreviation reachable := (SelectionSpec.reachable File createObjectURL Math_random toString36).
Abbreviation effect := (PhotoCloud.effect Math_random).
Abbreviation render := (PhotoCloud.render Math_random).

Lemma effect_cases (m : AppState) (n rng : nat) :
  (m = ZOOM -> (0 < n)%nat ->
     effect m n rng
     = (JSMath.Math_floor (Math_random rng * JSMath.of_nat n)%float, S rng))
  /\ (m <> ZOOM -> effect m n rng = ((-1)%float, rng)).
Proof.
  unfold PhotoCloud.effect. split.
  - intros -> Hn. destruct (Nat.ltb_spec 0 n); [reflexivity | lia].
  - intros Hm. case_bool_decide; [contradiction | reflexivity].
Qed.

Lemma render_deps (m : AppState) (ps : list PhotoData) (b : bool)
    (c : PhotoCloud.State) (rng : nat) :
  PhotoCloud.deps (fst (render m ps b c rng)) = Some (m, length ps).
Proof.
  unfold PhotoCloud.render. case_bool_decide as Hd; simpl; [exact Hd|].
  destruct (effect _ _ _); reflexivity.
Qed.

Lemma render_same (m : AppState) (ps : list PhotoData) (b : bool)
    (c : PhotoCloud.State) (rng : nat) :
  PhotoCloud.deps c = Some (m, length ps) ->
  fst (render m ps b c rng) = c.
Proof.
  intros Hd. unfold PhotoCloud.render.
  case_bool_decide; [reflexivity | contradiction].
Qed.

Lemma render_changed (m : AppState) (ps : list PhotoData) (b : bool)
    (c : PhotoCloud.State) (rng : nat) :
  PhotoCloud.deps c <> Some (m, length ps) ->
  exists k, PhotoCloud.activePhotoIndex (fst (render m ps b c rng))
            = fst (effect m (length ps) k).
Proof.
  intros Hd. unfold PhotoCloud.render.
  case_bool_decide; [contradiction|].
  eexists. destruct (effect _ _ _) eqn:E. simpl. rewrite E. reflexivity.
Qed.

Lemma step_cloud (w : World.State) (ev : World.Event File) :
  exists b r,
    World.cloud (step w ev)
    = fst (render (mode (step w ev)) (App.photos (World.app (step w ev))) b
             (World.cloud w) r).
Proof.
  unfold World.step, mode. destruct ev as [data now|files].
  - eexists _, _. destruct (render _ _ _ _ _) eqn:E. simpl.
    rewrite E. reflexivity.
  - destruct (upload _ _ _) as [a r0].
    eexists _, _. destruct (render _ _ _ _ _) eqn:E. simpl.
    rewrite E. reflexivity.
Qed.

Lemma handleHandUpdate_photos (s : App.State) (data : HandData) (now : Z) :
  App.photos (App.handleHandUpdate s data now) = App.photos s.
Proof.
  rewrite handleHandUpdate_rules.
  repeat case_match; reflexivity.
Qed.

Lemma handleHandUpdate_enters_zoom (s : App.State) (data : HandData) (now : Z) :
  App.appState (App.handleHandUpdate s data now) = ZOOM ->
  App.appState s <> ZOOM ->
  (0 < length (App.photos s))%nat.
Proof.
  rewrite handleHandUpdate_rules.
  destruct s as [m ps hd t], data as [g px py tx ty]; simpl.
  destruct g, m; simpl; try congruence;
    destruct (Nat.ltb_spec 0 (length ps)); try (intros; assumption);
    repeat (case_match; simpl); unfold App.setHandData; simpl; congruence.
Qed.

(** Entering ZOOM, or adding photos while in it, leaves a photo to pick. *)
Lemma step_count_pos (w : World.State) (ev : World.Event File) :
  mode (step w ev) = ZOOM ->
  mode w <> ZOOM \/ count (step w ev) <> count w ->
  (0 < count (step w ev))%nat.
Proof.
  unfold mode, count. destruct ev as [data now|files].
  - rewrite step_app_HandUpdate, handleHandUpdate_photos.
    intros Hz [Hm|Hn]; [|contradiction].
    eapply handleHandUpdate_enters_zoom; eassumption.
  - rewrite step_app_PhotoUpload.
    destruct (World.app w) as [m ps hd t], files as [fs|]; simpl.
    + rewrite length_app. case_bool_decide; [discriminate|].
      intros -> [Hm|Hn]; [contradiction | lia].
    + intros -> [Hm|Hn]; contradiction.
Qed.

Lemma settled_step (w : World.State) (ev : World.Event File) :
  settled w -> settled (step w ev).
Proof.
  intros (Hd & Hout).
  destruct (step_cloud w ev) as (b & r & Hc).
  unfold settled, selection. rewrite Hc, render_deps.
  split; [reflexivity|].
  destruct (decide (PhotoCloud.deps (World.cloud w)
                    = Some (mode (step w ev), length (App.photos (World.app (step w ev))))))
    as [Hsame|Hdiff].
  - rewrite (render_same _ _ _ _ _ Hsame).
    rewrite Hd in Hsame. injection Hsame as Hm Hn.
    rewrite <- Hm. exact Hout.
  - destruct (render_changed _ _ b _ r Hdiff) as (k & ->).
    intros Hm. rewrite (proj2 (effect_cases _ _ k) Hm). reflexivity.
Qed.

Lemma settled_mount (rng : nat) : settled (World.mount Math_random rng).
Proof. split; reflexivity. Qed.

Lemma settled_run (evs : list (World.Event File)) :
  forall w, settled w -> settled (run w evs).
Proof.
  induction evs as [|ev evs IH]; intros w Hw; [exact Hw|].
  apply IH, settled_step, Hw.
Qed.

Lemma reachable_settled (w : World.State) : reachable w -> settled w.
Proof. intros (rng & evs & ->). apply settled_run, settled_mount. Qed.

(** An upload of at least one file while in ZOOM: the mode stays ZOOM, the
    dependency [photos.length] of the effect has changed, and the effect
    overwrites the selection with a fresh draw. *)
Lemma upload_in_zoom (w : World.State) (fs : list File) :
  reachable w -> mode w = ZOOM -> fs <> [] ->
  let w' := step w (World.PhotoUpload (Some fs)) in
  let k := (World.rng w + length fs + 3 * count w')%nat in
  mode w' = ZOOM
  /\ count w' = (count w + length fs)%nat
  /\ selection w'
     = JSMath.Math_floor (Math_random k * JSMath.of_nat (count w'))%float
  /\ World.rng w' = S k.
Proof.
  intros Hr Hz Hfs.
  destruct (reachable_settled w Hr) as (Hd & _).
  destruct w as [[m ps hd t] c r]. unfold mode, count, selection in *.
  simpl in Hz, Hd. subst m.
  assert (Hlen : (0 < length fs)%nat) by (destruct fs; [contradiction | simpl; lia]).
  cbn -[PhotoCloud.render Nat.mul]. unfold PhotoCloud.render.
  rewrite length_app, newPhotos_length.
  case_bool_decide as Hdeps.
  - rewrite Hd in Hdeps. injection Hdeps as Hn. lia.
  - rewrite (proj1 (effect_cases ZOOM _ _) eq_refl) by lia.
    cbn [fst snd World.app World.cloud World.rng App.appState App.photos
         PhotoCloud.activePhotoIndex].
    rewrite length_app, newPhotos_length. repeat split.
Qed.

End ZoomSelection.

Lemma zoomed_reachable :
  SelectionSpec.reachable unit SelectionSpec.blob SelectionSpec.three_quarters
    SelectionSpec.ident SelectionSpec.zoomed.
Proof. exists 0%nat, SelectionSpec.to_zoom. reflexivity. Qed.

(** The claim as stated does not hold of the code: a photo added while in
    ZOOM neither enters nor leaves ZOOM, yet the selection changes. *)
Lemma selection_redrawn_in_zoom :
  ~ SelectionSpec.changes_only_at_zoom_boundary unit SelectionSpec.blob
      SelectionSpec.three_quarters SelectionSpec.ident.
Proof.
  intros H.
  specialize (H SelectionSpec.zoomed SelectionSpec.one_more zoomed_reachable).
  assert (E : SelectionSpec.selection
                (World.step unit SelectionSpec.blob SelectionSpec.three_quarters
                   SelectionSpec.ident SelectionSpec.zoomed SelectionSpec.one_more)
              = SelectionSpec.selection SelectionSpec.zoomed).
  { apply H.
    - intros [Hne _]. apply Hne. reflexivity.
    - intros [_ Hne]. apply Hne. reflexivity. }
  vm_compute in E. discriminate E.
Qed.

(** C8: the code at the failing input.  Whenever at least one photo is
    uploaded while the mode is ZOOM, the mode stays ZOOM and the effect,
    which also depends on the number of photos, replaces the selection by
    the floor of a fresh draw times the new number of photos.  With one
    photo zoomed as photo 0 and every draw equal to 0.75, uploading one
    more photo moves the selection to photo 1 although ZOOM is neither
    entered nor left. *)
Theorem zoom_selection_redrawn_on_upload :
  (forall (File : Type) (createObjectURL : File -> string)
          (Math_random : nat -> float) (toString36 : float -> string)
          (w : World.State) (fs : list File),
      SelectionSpec.reachable File createObjectURL Math_random toString36 w ->
      SelectionSpec.mode w = ZOOM -> fs <> [] ->
      let w' := World.step File createObjectURL Math_random toString36 w
                  (World.PhotoUpload (Some fs)) in
      let k := (World.rng w + length fs + 3 * SelectionSpec.count w')%nat in
      SelectionSpec.mode w' = ZOOM
      /\ SelectionSpec.count w' = (SelectionSpec.count w + length fs)%nat
      /\ SelectionSpec.selection w'
         = JSMath.Math_floor
             (Math_random k * JSMath.of_nat (SelectionSpec.count w'))%float)
  /\ (let w := SelectionSpec.zoomed in
      let w' := World.step unit SelectionSpec.blob SelectionSpec.three_quarters
                  SelectionSpec.ident w SelectionSpec.one_more in
      SelectionSpec.mode w = ZOOM /\ SelectionSpec.mode w' = ZOOM
      /\ SelectionSpec.count w = 1%nat /\ SelectionSpec.count w' = 2%nat
      /\ SelectionSpec.selection w = 0%float
      /\ SelectionSpec.selection w' = 1%float).
Proof.
  split.
  - intros File createObjectURL Math_random toString36 w fs Hr Hz Hfs.
    destruct (upload_in_zoom File createObjectURL Math_random toString36
                w fs Hr Hz Hfs) as (H1 & H2 & H3 & _).
    repeat split; assumption.
  - vm_compute. repeat split; reflexivity.
Qed.

Lemma zoom_selection_redrawn_on_upload_witness :
  let w' := World.step unit SelectionSpec.blob SelectionSpec.three_quarters
              SelectionSpec.ident SelectionSpec.zoomed
              (World.PhotoUpload (Some [tt])) in
  SelectionSpec.mode w' = ZOOM
  /\ SelectionSpec.count w' = 2%nat
  /\ SelectionSpec.selection w' = JSMath.Math_floor (0.75 * 2)%float.
Proof.
  apply (proj1 zoom_selection_redrawn_on_upload unit SelectionSpec.blob
           SelectionSpec.three_quarters SelectionSpec.ident
           SelectionSpec.zoomed [tt] zoomed_reachable).
  - reflexivity.
  - discriminate.
Defined.

(** ** Exponential damping *)

Section ExponentialDamping.
Import Damping.
Local Open Scope R_scope.

Lemma damp_decay (x y lambda dt : R) :
  damp x y lambda dt = y + (x - y) * exp (- lambda * dt).
Proof. unfold damp, lerp. ring. Qed.

Lemma damp_split (x y lambda t1 t2 : R) :
  damp (damp x y lambda t1) y lambda t2 = damp x y lambda (t1 + t2).
Proof.
  rewrite !damp_decay.
  replace (- lambda * (t1 + t2)) with (- lambda * t1 + - lambda * t2) by ring.
  rewrite exp_plus. ring.
Qed.

Lemma damp_zero (x y lambda : R) : damp x y lambda 0 = x.
Proof. rewrite damp_decay, Rmult_0_r, exp_0. ring. Qed.

Lemma damp_frames_elapsed (y lambda : R) (dts : list R) :
  forall x, damp_frames x y lambda dts = damp x y lambda (elapsed dts).
Proof.
  unfold damp_frames.
  induction dts as [|dt dts IH]; intros x; simpl.
  - symmetry. apply damp_zero.
  - rewrite IH. apply damp_split.
Qed.

Lemma exp_decay_bound (u : R) : 0 <= u -> exp (- u) <= / (1 + u).
Proof.
  intros Hu. rewrite exp_Ropp.
  apply Rinv_le_contravar; [lra | apply exp_ineq1_le].
Qed.

Lemma damp_near_target (x y lambda eps : R) :
  0 < lambda -> 0 < eps ->
  forall t, Rabs (x - y) / (eps * lambda) <= t ->
            Rabs (damp x y lambda t - y) < eps.
Proof.
  intros Hl He t Ht.
  assert (Hel : 0 < eps * lambda) by (apply Rmult_lt_0_compat; assumption).
  assert (Habs : 0 <= Rabs (x - y)) by apply Rabs_pos.
  assert (Ht0 : 0 <= t).
  { eapply Rle_trans; [|exact Ht].
    apply Rmult_le_pos; [exact Habs | left; apply Rinv_0_lt_compat, Hel]. }
  assert (Hlt : 0 <= lambda * t) by (apply Rmult_le_pos; lra).
  rewrite damp_decay.
  replace (- lambda * t) with (- (lambda * t)) by ring.
  replace (y + (x - y) * exp (- (lambda * t)) - y)
    with ((x - y) * exp (- (lambda * t))) by ring.
  rewrite Rabs_mult, (Rabs_pos_eq (exp _)) by (left; apply exp_pos).
  eapply Rle_lt_trans.
  - apply Rmult_le_compat_l; [exact Habs | apply exp_decay_bound, Hlt].
  - apply (Rmult_lt_reg_r (1 + lambda * t)); [lra|].
    unfold Rdiv in *. rewrite Rmult_assoc, Rinv_l, Rmult_1_r by lra.
    apply (Rmult_le_compat_r (eps * lambda)) in Ht; [|lra].
    rewrite Rmult_assoc, Rinv_l, Rmult_1_r in Ht by lra.
    nra.
Qed.

(** C7. The damping step is invariant under splitting a time step: one
    step of t1 + t2 equals a step of t1 followed by a step of t2, and any
    sequence of frames equals one step of their total time.  With a
    positive rate the damped value converges to the target as the total
    elapsed time grows without bound. *)
Theorem damping_split_and_convergence :
  (forall x y lambda t1 t2 : R,
      damp (damp x y lambda t1) y lambda t2 = damp x y lambda (t1 + t2))
  /\ (forall (x y lambda : R) (dts : list R),
        damp_frames x y lambda dts = damp x y lambda (elapsed dts))
  /\ (forall x y lambda : R,
        0 < lambda ->
        forall eps : R, 0 < eps ->
        exists T : R, forall dts : list R,
            T <= elapsed dts ->
            Rabs (damp_frames x y lambda dts - y) < eps).
Proof.
  split; [exact damp_split|].
  split; [intros; apply damp_frames_elapsed|].
  intros x y lambda Hl eps He.
  exists (Rabs (x - y) / (eps * lambda)). intros dts HT.
  rewrite damp_frames_elapsed. apply damp_near_target; assumption.
Qed.

Lemma damping_split_and_convergence_witness :
  exists T : R, forall dts : list R,
      T <= elapsed dts -> Rabs (damp_frames 0 1 12 dts - 1) < 1.
Proof.
  apply (proj2 (proj2 damping_split_and_convergence) 0 1 12); lra.
Defined.
End ExponentialDamping.

(** ** Particle update *)

Section ParticleUpdate.
Import Ornaments OrnamentsSpec.

Variable damp : float -> float -> float -> float -> float.
Variable Math_sin Math_cos : float -> float.
Variable fround : float -> float.
Variable L : Layout.
Variable appState : AppState.
Variables time delta : float.

Abbreviation dampInto := (Ornaments.dampInto damp fround L appState delta).
Abbreviation instanceAt := (Ornaments.instanceAt Math_sin Math_cos L appState time).
Abbreviation body := (Ornaments.body damp Math_sin Math_cos fround L appState time delta).
Abbreviation useFrame := (Ornaments.useFrame damp Math_sin Math_cos fround L appState time delta).
Abbreviation damped := (OrnamentsSpec.damped damp fround L appState delta).

Lemma rd_insert_ne (l : list float) (i j : nat) (v : float) :
  i <> j -> rd (<[i:=v]> l) j = rd l j.
Proof. intros Hij. unfold rd. rewrite list_lookup_insert_ne by exact Hij. reflexivity. Qed.

Lemma rd_insert_eq (l : list float) (i : nat) (v : float) :
  (i < length l)%nat -> rd (<[i:=v]> l) i = v.
Proof. intros Hi. unfold rd. rewrite list_lookup_insert_eq by exact Hi. reflexivity. Qed.

Lemma damped_lookup (n : nat) (old : list float) (j : nat) :
  damped n old !! j
  = (fun v => if (j <? 3 * n)%nat
              then fround (damp v (target L appState j) (rate appState) delta)
              else v) <$> old !! j.
Proof. unfold OrnamentsSpec.damped. apply list_lookup_imap. Qed.

Lemma damped_length (n : nat) (old : list float) :
  length (damped n old) = length old.
Proof. apply length_imap. Qed.

Lemma rd_damped_ge (n : nat) (old : list float) (j : nat) :
  (3 * n <= j)%nat -> rd (damped n old) j = rd old j.
Proof.
  intros Hj. unfold rd. rewrite damped_lookup.
  destruct (Nat.ltb_spec j (3 * n)); [lia|].
  destruct (old !! j); reflexivity.
Qed.

Lemma rd_damped_lt (n : nat) (old : list float) (j : nat) :
  (j < 3 * n)%nat -> (j < length old)%nat ->
  rd (damped n old) j
  = fround (damp (rd old j) (target L appState j) (rate appState) delta).
Proof.
  intros Hj Hlen. unfold rd. rewrite damped_lookup.
  destruct (Nat.ltb_spec j (3 * n)); [|lia].
  destruct (lookup_lt_is_Some_2 old j Hlen) as [v ->]. reflexivity.
Qed.

(** Written out, the three stores of one iteration. *)
Lemma dampInto_stores (cur : list float) (i : nat) :
  dampInto cur i =
  let cur0 := <[(i * 3)%nat :=
                fround (damp (rd cur (i * 3)) (target L appState (i * 3))
                          (rate appState) delta)]> cur in
  let cur1 := <[(i * 3 + 1)%nat :=
                fround (damp (rd cur0 (i * 3 + 1)) (target L appState (i * 3 + 1))
                          (rate appState) delta)]> cur0 in
  <[(i * 3 + 2)%nat :=
    fround (damp (rd cur1 (i * 3 + 2)) (target L appState (i * 3 + 2))
              (rate appState) delta)]> cur1.
Proof.
  unfold Ornaments.dampInto, target, rate.
  destruct (bool_decide (appState = TREE)); reflexivity.
Qed.

Lemma dampInto_damped (n : nat) (old : list float) :
  dampInto (damped n old) n = damped (S n) old.
Proof.
  rewrite dampInto_stores; cbv zeta.
  rewrite !rd_insert_ne by lia.
  rewrite !rd_damped_ge by lia.
  apply list_eq; intros j.
  rewrite !list_lookup_insert, !length_insert, damped_length, !damped_lookup.
  unfold rd.
  destruct (Nat.ltb_spec j (3 * n)) as [Hlt|Hge];
    destruct (Nat.ltb_spec j (3 * S n)) as [Hlt'|Hge']; try lia;
    destruct (old !! j) as [v|] eqn:Ej;
    cbn [fmap option_fmap option_map from_option id];
    try (pose proof (lookup_lt_Some _ _ _ Ej));
    try (pose proof (lookup_ge_None_1 _ _ Ej));
    repeat case_decide; destruct_and?; subst;
    rewrite ?Ej; cbn [fmap option_fmap option_map from_option id];
    try reflexivity; try lia.
Qed.

Lemma loop_buffer (n : nat) (st : State) :
  currentPositions (fold_left body (seq 0 n) st)
  = damped n (currentPositions st).
Proof.
  induction n as [|n IH].
  - simpl. unfold OrnamentsSpec.damped. symmetry.
    apply list_eq; intros j. rewrite list_lookup_imap.
    destruct (currentPositions st !! j); reflexivity.
  - rewrite seq_S, fold_left_app; simpl.
    rewrite IH. apply dampInto_damped.
Qed.

Lemma loop_mesh_length (n : nat) (st : State) :
  length (mesh (fold_left body (seq 0 n) st)) = length (mesh st).
Proof.
  induction n as [|n IH]; [reflexivity|].
  rewrite seq_S, fold_left_app; simpl. rewrite length_insert. exact IH.
Qed.

Lemma loop_mesh (n : nat) (st : State) (i : nat) :
  (i < n)%nat -> (i < length (mesh st))%nat ->
  mesh (fold_left body (seq 0 n) st) !! i
  = Some (instanceAt (damped (S i) (currentPositions st)) i).
Proof.
  intros Hi Hlen. induction n as [|n IH]; [lia|].
  rewrite seq_S, fold_left_app; simpl.
  destruct (decide (i = n)) as [->|Hne].
  - rewrite list_lookup_insert_eq by (rewrite loop_mesh_length; exact Hlen).
    rewrite loop_buffer, dampInto_damped. reflexivity.
  - rewrite list_lookup_insert_ne by congruence. apply IH. lia.
Qed.
Lemma rd_damped_same (n1 n2 : nat) (old : list float) (j : nat) :
  (j < 3 * n1)%nat -> (j < 3 * n2)%nat ->
  rd (damped n1 old) j = rd (damped n2 old) j.
Proof.
  intros H1 H2. unfold rd. rewrite !damped_lookup.
  destruct (Nat.ltb_spec j (3 * n1)); [|lia].
  destruct (Nat.ltb_spec j (3 * n2)); [|lia].
  reflexivity.
Qed.

Lemma useFrame_buffer (st : State) :
  currentPositions (useFrame st)
  = damped CONFIG.PARTICLE_COUNT (currentPositions st).
Proof. apply loop_buffer. Qed.

Lemma useFrame_instance (st : State) (i : nat) :
  (i < CONFIG.PARTICLE_COUNT)%nat -> (i < length (mesh st))%nat ->
  exists inst,
    mesh (useFrame st) !! i = Some inst
    /\ position inst
       = ((rd (currentPositions (useFrame st)) (i * 3)
           + Math_sin (time + num i) * amplitude appState)%float,
          (rd (currentPositions (useFrame st)) (i * 3 + 1)
           + Math_cos (time * 0.8 + num i) * amplitude appState)%float,
          (rd (currentPositions (useFrame st)) (i * 3 + 2)
           + Math_sin (time * 0.5 + num i) * amplitude appState)%float).
Proof.
  intros Hi Hlen. eexists. split; [apply loop_mesh; assumption|].
  rewrite useFrame_buffer.
  unfold Ornaments.instanceAt, amplitude; cbn [position].
  rewrite (rd_damped_same (S i) CONFIG.PARTICLE_COUNT _ (i * 3)) by lia.
  rewrite (rd_damped_same (S i) CONFIG.PARTICLE_COUNT _ (i * 3 + 1)) by lia.
  rewrite (rd_damped_same (S i) CONFIG.PARTICLE_COUNT _ (i * 3 + 2)) by lia.
  reflexivity.
Qed.
End ParticleUpdate.

(** C9. One frame of the particle update leaves in the position buffer, for
    every coordinate of the 150 particles, the stored value damped toward
    the target of the mode (rate 12 in TREE, 2 otherwise) and nothing else:
    the buffer after the frame is the same whatever the elapsed time and
    the sine and cosine used for the jitter.  The jitter (amplitude 0.02 in
    TREE, 0.2 otherwise) appears only in the position written to the mesh
    for that frame, on top of the damped value. *)
Theorem jitter_not_accumulated
    (damp : float -> float -> float -> float -> float)
    (fround : float -> float) (L : Ornaments.Layout) (mode : AppState)
    (delta : float) (st : Ornaments.State) :
  let frame := fun sin cos time =>
    Ornaments.useFrame damp sin cos fround L mode time delta st in
  let old := Ornaments.currentPositions st in
  (forall sin cos time,
      Ornaments.currentPositions (frame sin cos time)
      = OrnamentsSpec.damped damp fround L mode delta CONFIG.PARTICLE_COUNT old)
  /\ (forall j : nat,
        (j < 3 * CONFIG.PARTICLE_COUNT)%nat -> (j < length old)%nat ->
        Ornaments.rd (OrnamentsSpec.damped damp fround L mode delta
                        CONFIG.PARTICLE_COUNT old) j
        = fround (damp (Ornaments.rd old j) (OrnamentsSpec.target L mode j)
                    (OrnamentsSpec.rate mode) delta))
  /\ (forall sin1 cos1 time1 sin2 cos2 time2,
        Ornaments.currentPositions (frame sin1 cos1 time1)
        = Ornaments.currentPositions (frame sin2 cos2 time2))
  /\ (forall sin cos time (i : nat),
        (i < CONFIG.PARTICLE_COUNT)%nat ->
        (i < length (Ornaments.mesh st))%nat ->
        let cur := Ornaments.currentPositions (frame sin cos time) in
        exists inst,
          Ornaments.mesh (frame sin cos time) !! i = Some inst
          /\ Ornaments.position inst
             = ((Ornaments.rd cur (i * 3)
                 + sin (time + Ornaments.num i) * OrnamentsSpec.amplitude mode)%float,
                (Ornaments.rd cur (i * 3 + 1)
                 + cos (time * 0.8 + Ornaments.num i) * OrnamentsSpec.amplitude mode)%float,
                (Ornaments.rd cur (i * 3 + 2)
                 + sin (time * 0.5 + Ornaments.num i) * OrnamentsSpec.amplitude mode)%float)).
Proof.
  intros frame old. subst frame old.
  split; [intros; apply useFrame_buffer|].
  split; [intros j Hj Hlen; apply rd_damped_lt; assumption|].
  split; [intros; rewrite !useFrame_buffer; reflexivity|].
  intros sin cos time i Hi Hlen cur. subst cur.
  apply useFrame_instance; assumption.
Qed.

Lemma jitter_not_accumulated_witness :
  let frame :=
    Ornaments.useFrame OrnamentsSpec.halfway OrnamentsSpec.one OrnamentsSpec.one
      (fun v => v) OrnamentsSpec.flat SCATTERED 1 0.016 OrnamentsSpec.at_rest in
  exists inst,
    Ornaments.mesh frame !! 149%nat = Some inst
    /\ Ornaments.position inst
       = ((Ornaments.rd (Ornaments.currentPositions frame) (149 * 3)
           + OrnamentsSpec.one (1 + Ornaments.num 149)
             * OrnamentsSpec.amplitude SCATTERED)%float,
          (Ornaments.rd (Ornaments.currentPositions frame) (149 * 3 + 1)
           + OrnamentsSpec.one (1 * 0.8 + Ornaments.num 149)
             * OrnamentsSpec.amplitude SCATTERED)%float,
          (Ornaments.rd (Ornaments.currentPositions frame) (149 * 3 + 2)
           + OrnamentsSpec.one (1 * 0.5 + Ornaments.num 149)
             * OrnamentsSpec.amplitude SCATTERED)%float).
Proof.
  apply (proj2 (proj2 (proj2 (jitter_not_accumulated OrnamentsSpec.halfway
           (fun v => v) OrnamentsSpec.flat SCATTERED 0.016 OrnamentsSpec.at_rest)))
           OrnamentsSpec.one OrnamentsSpec.one 1%float 149%nat).
  - unfold CONFIG.PARTICLE_COUNT. lia.
  - vm_compute. lia.
Defined.

(** * Further properties of the code *)

(** ** The handler on its own *)

Section HandlerFacts.
Import App ModeSpec.

(** Every call stores the pose it is given and leaves the photos alone;
    the same pose delivered again at the same instant changes nothing. *)
Theorem handleHandUpdate_idempotent (s : State) (data : HandData) (now : Z) :
  handData (handleHandUpdate s data now) = data
  /\ photos (handleHandUpdate s data now) = photos s
  /\ handleHandUpdate (handleHandUpdate s data now) data now
     = handleHandUpdate s data now.
Proof.
  split; [|split].
  - rewrite handleHandUpdate_rules. repeat case_match; reflexivity.
  - apply handleHandUpdate_photos.
  - rewrite (handleHandUpdate_rules s).
    destruct s as [m ps hd t], data as [g px py tx ty]; simpl.
    destruct (Z.ltb_spec (now - t) 500) as [Hlt|Hge];
      destruct (Nat.ltb_spec 0 (length ps)) as [Hps|Hps];
      destruct g, m; unfold setHandData; simpl;
      rewrite handleHandUpdate_rules; unfold setHandData; simpl;
      rewrite ?Z.sub_diag; simpl;
      repeat (match goal with
              | |- context [(now - t <? 500)] =>
                  destruct (Z.ltb_spec (now - t) 500); try lia
              | |- context [(0 <? length ps)%nat] =>
                  destruct (Nat.ltb_spec 0 (length ps)); try lia
              end; simpl); reflexivity.
Qed.

(** The clock follows the time of the calls: when the clock is not ahead of
    [now] it does not go back and does not pass [now]; and a mode change
    made by a gesture other than FIST comes at least 500 ms after the
    previous change. *)
Theorem clock_monotone (s : State) (data : HandData) (now : Z) :
  (lastStateChange s <= now ->
     lastStateChange s <= lastStateChange (handleHandUpdate s data now) <= now)
  /\ (gesture data <> FIST ->
      appState (handleHandUpdate s data now) <> appState s ->
      lastStateChange (handleHandUpdate s data now) = now
      /\ lastStateChange s + 500 <= now).
Proof.
  rewrite handleHandUpdate_rules.
  destruct s as [m ps hd t], data as [g px py tx ty]; simpl.
  destruct (Z.ltb_spec (now - t) 500);
    destruct g, m; simpl; repeat (case_match; simpl);
    split; intros; try split; try congruence; try lia.
Qed.

Lemma clock_monotone_witness :
  1000 <= lastStateChange
            (handleHandUpdate (mkState ZOOM [] (pose NONE) 1000) (pose FIST) 1200)
       <= 1200
  /\ lastStateChange
       (handleHandUpdate (mkState TREE [] (pose NONE) 1000) (pose OPEN_HAND) 1700)
     = 1700.
Proof.
  split.
  - apply (proj1 (clock_monotone (mkState ZOOM [] (pose NONE) 1000) (pose FIST) 1200)).
    simpl; lia.
  - apply (proj2 (clock_monotone (mkState TREE [] (pose NONE) 1000)
                    (pose OPEN_HAND) 1700));
      simpl; discriminate.
Defined.
End HandlerFacts.

(** ** Uploads *)

Section UploadFacts.
Import App.

Variable File : Type.
Variable createObjectURL : File -> string.
Variable Math_random : nat -> float.
Variable toString36 : float -> string.

Abbreviation upload := (handlePhotoUpload File createObjectURL Math_random toString36).
Abbreviation newPhotos := (App.newPhotos File createObjectURL Math_random toString36).

Lemma newPhotos_lookup (rng : nat) (fs : list File) (k : nat) :
  newPhotos rng fs !! k
  = (fun f => mkPhotoData (toString36 (Math_random (rng + k)))
                (createObjectURL f) 1) <$> fs !! k.
Proof. unfold App.newPhotos. apply list_lookup_imap. Qed.

Lemma newPhotos_url (rng : nat) (fs : list File) :
  map url (newPhotos rng fs) = map createObjectURL fs.
Proof.
  apply list_eq; intros k.
  rewrite !list_lookup_fmap, newPhotos_lookup.
  destruct (fs !! k); reflexivity.
Qed.

Lemma newPhotos_aspect (rng : nat) (fs : list File) :
  map aspectRatio (newPhotos rng fs) = map (fun _ => 1%float) fs.
Proof.
  apply list_eq; intros k.
  rewrite !list_lookup_fmap, newPhotos_lookup.
  destruct (fs !! k); reflexivity.
Qed.

(** An upload appends: the photos already there keep their indices, and
    file [k] of the selection becomes the photo at index [count + k], with
    the object URL of that file, aspect ratio 1 and the identifier made
    from its own random draw; one draw is used per file.  An empty
    selection adds nothing and uses no draw, yet still turns TREE into
    SCATTERED. *)
Theorem upload_appends (s : State) (fs : list File) (rng : nat) :
  let s' := fst (upload s (Some fs) rng) in
  (forall (k : nat) (p : PhotoData),
      photos s !! k = Some p -> photos s' !! k = Some p)
  /\ (forall (k : nat) (f : File),
        fs !! k = Some f ->
        photos s' !! (length (photos s) + k)%nat
        = Some (mkPhotoData (toString36 (Math_random (rng + k)))
                  (createObjectURL f) 1))
  /\ snd (upload s (Some fs) rng) = (rng + length fs)%nat
  /\ (fs = [] ->
      photos s' = photos s
      /\ snd (upload s (Some fs) rng) = rng
      /\ (appState s = TREE -> appState s' = SCATTERED)).
Proof.
  simpl. split; [|split; [|split]].
  - intros k p Hk. apply lookup_app_l_Some. exact Hk.
  - intros k f Hk.
    rewrite lookup_app_r by lia.
    replace (length (photos s) + k - length (photos s))%nat with k by lia.
    rewrite newPhotos_lookup, Hk. reflexivity.
  - reflexivity.
  - intros ->. simpl. rewrite app_nil_r, Nat.add_0_r.
    repeat split. intros ->. reflexivity.
Qed.

End UploadFacts.

Lemma upload_appends_witness :
  let up := App.handlePhotoUpload nat (fun _ => "blob:0"%string)
              (fun _ => 0%float) (fun _ => "0"%string) in
  let s := App.mkState TREE [ModeSpec.a_photo] (ModeSpec.pose NONE) 0 in
  App.photos (fst (up s (Some [7; 8]%nat) 5%nat)) !! 0%nat = Some ModeSpec.a_photo
  /\ App.photos (fst (up s (Some [7; 8]%nat) 5%nat)) !! (1 + 1)%nat
     = Some (mkPhotoData "0" "blob:0" 1)
  /\ App.photos (fst (up s (Some []) 5%nat)) = [ModeSpec.a_photo].
Proof.
  split; [|split].
  - apply (proj1 (upload_appends nat (fun _ => "blob:0"%string) (fun _ => 0%float)
                    (fun _ => "0"%string)
                    (App.mkState TREE [ModeSpec.a_photo] (ModeSpec.pose NONE) 0)
                    [7; 8]%nat 5%nat)).
    reflexivity.
  - apply (proj1 (proj2 (upload_appends nat (fun _ => "blob:0"%string)
                    (fun _ => 0%float) (fun _ => "0"%string)
                    (App.mkState TREE [ModeSpec.a_photo] (ModeSpec.pose NONE) 0)
                    [7; 8]%nat 5%nat)) 1%nat 8%nat).
    reflexivity.
  - apply (proj2 (proj2 (proj2 (upload_appends nat (fun _ => "blob:0"%string)
                    (fun _ => 0%float) (fun _ => "0"%string)
                    (App.mkState TREE [ModeSpec.a_photo] (ModeSpec.pose NONE) 0)
                    [] 5%nat)))).
    reflexivity.
Defined.

(** ** The application between events *)

Section WorldFacts.
Import SelectionSpec.

Variable File : Type.
Variable createObjectURL : File -> string.
Variable Math_random : nat -> float.
Variable toString36 : float -> string.

Abbreviation upload := (App.handlePhotoUpload File createObjectURL Math_random toString36).
Abbreviation step := (World.step File createObjectURL Math_random toString36).
Abbreviation run := (World.run File createObjectURL Math_random toString36).
Abbreviation reachable := (SelectionSpec.reachable File createObjectURL Math_random toString36).

(** Induction over the worlds the application can reach. *)
Lemma reachable_invariant (P : World.State -> Prop) :
  (forall rng, P (World.mount Math_random rng)) ->
  (forall w ev, P w -> P (step w ev)) ->
  forall w, reachable w -> P w.
Proof.
  intros Hmount Hstep w (rng & evs & ->).
  generalize (World.mount Math_random rng) (Hmount rng).
  induction evs as [|ev evs IH]; intros w0 Hw0; [exact Hw0|].
  apply IH, Hstep, Hw0.
Qed.

Lemma reachable_deps (w : World.State) :
  reachable w -> PhotoCloud.deps (World.cloud w) = Some (mode w, count w).
Proof.
  revert w. apply reachable_invariant.
  - intros rng. reflexivity.
  - intros w ev _. destruct (step_cloud File createObjectURL Math_random
                               toString36 w ev) as (b & r & ->).
    apply render_deps.
Qed.

Lemma reachable_cleared (w : World.State) :
  reachable w -> mode w <> ZOOM -> selection w = (-1)%float.
Proof.
  intros Hr. apply (reachable_settled File createObjectURL Math_random
                      toString36 w Hr).
Qed.

(** Events that carry nothing.  In a reachable world a pose with gesture
    NONE only replaces the stored pose, and a change of the file input
    whose file list is null changes nothing at all.  A change with an
    empty file list is not inert: the photos, the clock, the stored pose
    and the zoom selection stay, but TREE becomes SCATTERED and the photo
    layout is computed again, which draws three random numbers per photo. *)
Theorem inert_events (w : World.State) :
  reachable w ->
  (forall (data : HandData) (now : Z),
      gesture data = NONE ->
      step w (World.HandUpdate data now)
      = World.mkState (App.setHandData data (World.app w))
          (World.cloud w) (World.rng w))
  /\ step w (World.PhotoUpload None) = w
  /\ (let w' := step w (World.PhotoUpload (Some [])) in
      App.photos (World.app w') = App.photos (World.app w)
      /\ App.lastStateChange (World.app w') = App.lastStateChange (World.app w)
      /\ App.handData (World.app w') = App.handData (World.app w)
      /\ mode w' = (if bool_decide (mode w = TREE) then SCATTERED else mode w)
      /\ selection w' = selection w
      /\ World.rng w' = (World.rng w + 3 * count w)%nat).
Proof.
  intros Hr. pose proof (reachable_deps w Hr) as Hd.
  pose proof (reachable_cleared w Hr) as Hclear.
  destruct w as [a c r]; unfold mode, count, selection in *; simpl in Hd, Hclear.
  split; [|split].
  - intros data now Hg. unfold World.step; simpl.
    rewrite handleHandUpdate_rules, Hg.
    replace (ModeSpec.rule_target (App.appState a) NONE (length (App.photos a)))
      with (@None AppState) by (destruct (App.appState a); reflexivity).
    unfold PhotoCloud.render; simpl.
    case_bool_decide; [reflexivity | contradiction].
  - unfold World.step; simpl. unfold PhotoCloud.render.
    case_bool_decide; [reflexivity | contradiction].
  - destruct a as [m ps hd t]; simpl in Hd, Hclear.
    cbn -[PhotoCloud.render Nat.mul]. unfold PhotoCloud.render.
    rewrite !app_nil_r, Nat.add_0_r, Hd.
    destruct m; simpl; try case_bool_decide; try congruence; simpl;
      repeat split; try reflexivity; try lia.
    symmetry. apply Hclear. discriminate.
Qed.

(** Uploading two file lists one after the other leaves the same mode,
    clock and stored pose, and the same photos in the same order as far as
    their object URLs and aspect ratios go, as uploading the two lists at
    once.  (The identifiers and the zoom selection may differ: the render
    between the two uploads draws random numbers.) *)
Theorem upload_twice (w : World.State) (fs gs : list File) :
  let w2 := run w [World.PhotoUpload (Some fs); World.PhotoUpload (Some gs)] in
  let w1 := step w (World.PhotoUpload (Some (fs ++ gs))) in
  mode w2 = mode w1
  /\ App.lastStateChange (World.app w2) = App.lastStateChange (World.app w1)
  /\ App.handData (World.app w2) = App.handData (World.app w1)
  /\ map url (App.photos (World.app w2)) = map url (App.photos (World.app w1))
  /\ map aspectRatio (App.photos (World.app w2))
     = map aspectRatio (App.photos (World.app w1))
  /\ count w2 = count w1.
Proof.
  unfold World.run, mode, count; cbn [fold_left].
  rewrite !step_app_PhotoUpload.
  destruct (World.app w) as [m ps hd t]; simpl.
  rewrite !map_app, !length_app, !newPhotos_length, !length_app.
  rewrite !(newPhotos_url File createObjectURL Math_random toString36).
  rewrite !(newPhotos_aspect File createObjectURL Math_random toString36).
  rewrite !map_app, !app_assoc.
  repeat split; try reflexivity; try lia.
  destruct m; reflexivity.
Qed.

(** The mode moves along the arrows of the diagram only: one event keeps
    the mode or follows an arrow, never goes from TREE to ZOOM, and an
    upload can only take TREE to SCATTERED. *)
Theorem mode_graph (w : World.State) (ev : World.Event File) :
  (mode (step w ev) = mode w \/ Graph.edge (mode w) (mode (step w ev)) = true)
  /\ (mode w = TREE -> mode (step w ev) <> ZOOM)
  /\ (forall files, ev = World.PhotoUpload files ->
        mode (step w ev) = mode w
        \/ (mode w = TREE /\ mode (step w ev) = SCATTERED)).
Proof.
  unfold mode. destruct ev as [data now|files].
  - rewrite step_app_HandUpdate, handleHandUpdate_rules.
    destruct (World.app w) as [m ps hd t], data as [g px py tx ty]; simpl.
    split; [|split; [|discriminate]];
      destruct g, m; simpl; repeat (case_match; simpl); auto; congruence.
  - rewrite step_app_PhotoUpload.
    destruct (World.app w) as [m ps hd t], files as [fs|]; simpl;
      (split; [|split]); try (intros; destruct m; simpl; auto; congruence);
      destruct m; simpl; auto.
Qed.

(** ZOOM is only ever on with something to zoom on: in every reachable
    world in ZOOM mode there is at least one photo. *)
Theorem zoom_has_photos (w : World.State) :
  reachable w -> mode w = ZOOM -> (0 < count w)%nat.
Proof.
  revert w.
  apply (reachable_invariant (fun w => mode w = ZOOM -> (0 < count w)%nat)).
  - intros rng. discriminate.
  - intros w ev IH Hz.
    destruct (decide (mode w = ZOOM)) as [Hw|Hw].
    + specialize (IH Hw). unfold count, mode in *.
      destruct ev as [data now|files].
      * rewrite step_app_HandUpdate, handleHandUpdate_photos. exact IH.
      * rewrite step_app_PhotoUpload.
        destruct files as [fs|]; simpl; [|exact IH].
        rewrite length_app. lia.
    + apply (step_count_pos File createObjectURL Math_random toString36);
        [exact Hz | left; exact Hw].
Qed.
End WorldFacts.

Lemma inert_events_witness :
  World.step unit SelectionSpec.blob SelectionSpec.three_quarters
    SelectionSpec.ident SelectionSpec.zoomed (World.PhotoUpload None)
  = SelectionSpec.zoomed
  /\ SelectionSpec.selection
       (World.step unit SelectionSpec.blob SelectionSpec.three_quarters
          SelectionSpec.ident SelectionSpec.zoomed (World.PhotoUpload (Some [])))
     = SelectionSpec.selection SelectionSpec.zoomed
  /\ World.rng
       (World.step unit SelectionSpec.blob SelectionSpec.three_quarters
          SelectionSpec.ident SelectionSpec.zoomed (World.PhotoUpload (Some [])))
     = (World.rng SelectionSpec.zoomed + 3 * SelectionSpec.count SelectionSpec.zoomed)%nat.
Proof.
  pose proof (inert_events unit SelectionSpec.blob SelectionSpec.three_quarters
                SelectionSpec.ident SelectionSpec.zoomed zoomed_reachable)
    as (_ & Hnull & _ & _ & _ & _ & Hsel & Hrng).
  split; [exact Hnull | split; [exact Hsel | exact Hrng]].
Defined.

Lemma mode_graph_witness :
  SelectionSpec.mode
    (World.step unit SelectionSpec.blob SelectionSpec.three_quarters
       SelectionSpec.ident (World.mount SelectionSpec.three_quarters 0)
       (World.HandUpdate (ModeSpec.pose PINCH) 1000)) <> ZOOM.
Proof.
  apply (proj1 (proj2 (mode_graph unit SelectionSpec.blob
                         SelectionSpec.three_quarters SelectionSpec.ident
                         (World.mount SelectionSpec.three_quarters 0)
                         (World.HandUpdate (ModeSpec.pose PINCH) 1000)))).
  reflexivity.
Defined.

Lemma zoom_has_photos_witness :
  (0 < SelectionSpec.count SelectionSpec.zoomed)%nat.
Proof.
  apply (zoom_has_photos unit SelectionSpec.blob SelectionSpec.three_quarters
           SelectionSpec.ident SelectionSpec.zoomed zoomed_reachable).
  reflexivity.
Defined.

(** ** The classifier on short and on broken input *)

Section ClassifierFacts.
Import HandController ClassifierSpec.

Ltac lookups :=
  repeat match goal with
         | |- context [at_ ?l ?i] =>
             let E := fresh "E" in
             destruct (at_ l i) eqn:E; unfold at_ in E;
             [apply lookup_lt_Some in E | apply lookup_ge_None_1 in E];
             cbn [mbind option_bind]
         end.

Lemma processResults_short (results : HandLandmarkerResult)
    (lm : list Landmark) :
  detected results = Some lm -> (length lm < 18)%nat ->
  processResults results = None.
Proof.
  destruct results as [l w]. unfold detected, processResults; simpl.
  destruct l as [[|lm' lms]|]; try discriminate. intros [= ->] Hlen.
  lookups; try reflexivity; lia.
Qed.

(** When the classifier throws.  With a hand detected, [processResults]
    fails exactly when a keypoint it reads is missing: with world landmarks
    it reads screen keypoints up to 17 and world keypoints up to 20,
    without them screen keypoints up to 20. *)
Theorem processResults_throws_iff (results : HandLandmarkerResult)
    (lm : list Landmark) :
  detected results = Some lm ->
  (processResults results = None <->
   match world results with
   | Some wl => (length lm < 18)%nat \/ (length wl < 21)%nat
   | None => (length lm < 21)%nat
   end).
Proof.
  destruct results as [l w]. unfold detected, world, processResults; simpl.
  destruct l as [[|lm' lms]|]; try discriminate. intros [= ->].
  destruct w as [[|wl wls]|]; unfold gesture2D, gesture3D; lookups;
    split; intros H; try discriminate H; try reflexivity; lia.
Qed.

Lemma processResults_throws_iff_witness :
  processResults (mkResult (Some [firstn 18 pinching_hand]) None) = None.
Proof.
  apply (proj2 (processResults_throws_iff
                  (mkResult (Some [firstn 18 pinching_hand]) None)
                  (firstn 18 pinching_hand) eq_refl)).
  simpl. lia.
Defined.

(** Where the parts of the pose come from.  Two frames that are both
    classified and have the same world hand get the same gesture, whatever
    their screen landmarks; two frames whose screen keypoints 0, 5 and 17
    agree get the same position and tilt, whatever else they contain. *)
Theorem pose_sources (r1 r2 : HandLandmarkerResult) (lm1 lm2 : list Landmark)
    (hd1 hd2 : HandData) :
  detected r1 = Some lm1 -> detected r2 = Some lm2 ->
  processResults r1 = Some hd1 -> processResults r2 = Some hd2 ->
  (forall wl, world r1 = Some wl -> world r2 = Some wl ->
              gesture hd1 = gesture hd2)
  /\ (lm1 !! 0%nat = lm2 !! 0%nat -> lm1 !! 5%nat = lm2 !! 5%nat ->
      lm1 !! 17%nat = lm2 !! 17%nat ->
      x hd1 = x hd2 /\ y hd1 = y hd2
      /\ tiltX hd1 = tiltX hd2 /\ tiltY hd1 = tiltY hd2).
Proof.
  destruct r1 as [l1 w1], r2 as [l2 w2].
  unfold detected, world, processResults; simpl.
  destruct l1 as [[|lm1' lms1]|]; try discriminate. intros [= ->].
  destruct l2 as [[|lm2' lms2]|]; try discriminate. intros [= ->].
  unfold at_.
  destruct (lm1 !! 0%nat) as [a0|], (lm1 !! 5%nat) as [a5|],
    (lm1 !! 17%nat) as [a17|]; try discriminate;
    destruct (lm2 !! 0%nat) as [b0|], (lm2 !! 5%nat) as [b5|],
    (lm2 !! 17%nat) as [b17|]; try discriminate;
    cbn [mbind option_bind].
  intros H1 H2. split.
  - intros wl Hw1 Hw2.
    destruct w1 as [[|wl1 wls1]|]; try discriminate. injection Hw1 as ->.
    destruct w2 as [[|wl2 wls2]|]; try discriminate. injection Hw2 as ->.
    destruct (gesture3D wl) as [g|]; try discriminate.
    cbn [mbind option_bind] in H1, H2.
    injection H1 as <-. injection H2 as <-. reflexivity.
  - intros [= ->] [= ->] [= ->].
    destruct (match w1 with Some (wl :: _) => gesture3D wl | _ => gesture2D lm1 b0 end);
      try discriminate.
    destruct (match w2 with Some (wl :: _) => gesture3D wl | _ => gesture2D lm2 b0 end);
      try discriminate.
    cbn [mbind option_bind] in H1, H2.
    injection H1 as <-. injection H2 as <-. repeat split; reflexivity.
Qed.

Lemma pose_sources_witness :
  gesture (mkHandData PINCH 1 0 0 0) = gesture (mkHandData PINCH 1 0 0 0).
Proof.
  apply (proj1 (pose_sources pinching_frame
                  (mkResult (Some [closed_hand]) (Some [pinching_hand]))
                  pinching_hand closed_hand
                  (mkHandData PINCH 1 0 0 0) (mkHandData PINCH 1 0 0 0)
                  eq_refl eq_refl eq_refl eq_refl) pinching_hand);
    reflexivity.
Defined.
End ClassifierFacts.

Section BrokenMeasurements.
Import HandController ClassifierSpec Measurements.
Local Open Scope float_scope.

Lemma ltb_nan_l (t : float) : (nan <? t) = false.
Proof. rewrite ltb_spec. reflexivity. Qed.

Lemma ltb_nan_r (t : float) : (t <? nan) = false.
Proof.
  rewrite ltb_spec. unfold SFltb.
  replace (Prim2SF nan) with S754_nan by reflexivity.
  destruct (Prim2SF t) as [s|s| |s m e]; try reflexivity; destruct s; reflexivity.
Qed.

Lemma sub_nan_r (a : float) : a - nan = nan.
Proof.
  rewrite <- (SF2Prim_Prim2SF (a - nan)), sub_spec. unfold SF64sub, SFsub.
  replace (Prim2SF nan) with S754_nan by reflexivity.
  destruct (Prim2SF a) as [s|s| |s m e]; try reflexivity; destruct s; reflexivity.
Qed.

Lemma mul_nan_l (a : float) : nan * a = nan.
Proof. rewrite <- (SF2Prim_Prim2SF (nan * a)), mul_spec. reflexivity. Qed.

Lemma add_nan_l (a : float) : nan + a = nan.
Proof. rewrite <- (SF2Prim_Prim2SF (nan + a)), add_spec. reflexivity. Qed.

Lemma add_nan_r (a : float) : a + nan = nan.
Proof.
  rewrite <- (SF2Prim_Prim2SF (a + nan)), add_spec. unfold SF64add, SFadd.
  replace (Prim2SF nan) with S754_nan by reflexivity.
  destruct (Prim2SF a) as [s|s| |s m e]; try reflexivity; destruct s; reflexivity.
Qed.

Lemma div_nan_l (a : float) : nan / a = nan.
Proof. rewrite <- (SF2Prim_Prim2SF (nan / a)), div_spec. reflexivity. Qed.

Lemma dist3D_broken (p q : Landmark) : broken q -> dist3D p q = nan.
Proof.
  unfold dist3D, pow2. intros [H|[H|H]]; rewrite H, sub_nan_r, mul_nan_l;
    rewrite ?add_nan_r, ?add_nan_l; reflexivity.
Qed.

Lemma cascade_nan (p fistT pinchT openT : float) :
  cascade nan p fistT pinchT openT = if p <? pinchT then PINCH else NONE.
Proof. unfold cascade. rewrite ltb_nan_l, ltb_nan_r. reflexivity. Qed.

Lemma processResults_world (results : HandLandmarkerResult)
    (lm wl : list Landmark) :
  detected results = Some lm -> (18 <= length lm)%nat ->
  world results = Some wl -> length wl = 21%nat ->
  exists hd, processResults results = Some hd
             /\ Some (gesture hd) = gesture3D wl.
Proof.
  destruct results as [l w]. unfold detected, world, processResults; simpl.
  destruct l as [[|lm' lms]|]; try discriminate. intros [= ->] Hlm.
  destruct w as [[|wl' wls]|]; try discriminate. intros [= ->] Hwl.
  rewrite (gesture3D_label wl Hwl). unfold at_.
  destruct (lookup_lt_is_Some_2 lm 0) as [p0 ->]; [lia|].
  destruct (lookup_lt_is_Some_2 lm 5) as [p5 ->]; [lia|].
  destruct (lookup_lt_is_Some_2 lm 17) as [p17 ->]; [lia|].
  eexists. split; reflexivity.
Qed.

(** A world wrist with a coordinate that is not a number makes every
    distance to the wrist NaN, and every comparison with NaN is false: such
    a frame is classified, and its gesture is PINCH when the thumb touches
    the index and NONE otherwise, never FIST and never OPEN_HAND. *)
Theorem broken_wrist_never_fist (results : HandLandmarkerResult)
    (lm wl : list Landmark) :
  detected results = Some lm -> (18 <= length lm)%nat ->
  world results = Some wl -> length wl = 21%nat ->
  broken (keypoint wl 0) ->
  exists hd, processResults results = Some hd
             /\ gesture hd = (if pinchDist dist3D wl <? 0.035 then PINCH else NONE)
             /\ gesture hd <> FIST /\ gesture hd <> OPEN_HAND.
Proof.
  intros Hd Hlm Hw Hwl Hb.
  destruct (processResults_world results lm wl Hd Hlm Hw Hwl) as (hd & Hp & Hg).
  exists hd. split; [exact Hp|].
  destruct (hand_21 wl Hwl) as (p0 & p1 & p2 & p3 & p4 & p5 &
    p6 & p7 & p8 & p9 & p10 & p11 & p12 & p13 & p14 & p15 & p16 & p17 & p18 &
    p19 & p20 & ->).
  unfold keypoint in Hb; cbn [lookup list_lookup from_option id] in Hb.
  unfold gesture3D in Hg; cbn [at_ lookup list_lookup mbind option_bind] in Hg.
  unfold avgDist in Hg; cbn [fold_left] in Hg.
  rewrite !(dist3D_broken _ p0 Hb) in Hg.
  rewrite !add_nan_r, div_nan_l, cascade_nan in Hg.
  injection Hg as Hg.
  assert (E : gesture hd = (if pinchDist dist3D
      [p0; p1; p2; p3; p4; p5; p6; p7; p8; p9; p10; p11; p12; p13; p14; p15;
       p16; p17; p18; p19; p20] <? 0.035 then PINCH else NONE)) by exact Hg.
  rewrite E. split; [reflexivity|].
  destruct (_ <? _); split; discriminate.
Qed.
End BrokenMeasurements.

Lemma broken_wrist_never_fist_witness :
  exists hd, HandController.processResults Measurements.lost_wrist_frame = Some hd
             /\ gesture hd = PINCH.
Proof.
  destruct (broken_wrist_never_fist Measurements.lost_wrist_frame
              ClassifierSpec.pinching_hand Measurements.lost_wrist)
    as (hd & Hp & Hg & _).
  - reflexivity.
  - simpl. lia.
  - reflexivity.
  - reflexivity.
  - left. reflexivity.
  - exists hd. split; [exact Hp|]. rewrite Hg. reflexivity.
Defined.

(** ** The detection loop *)

Section DetectionLoop.
Import HandController ClassifierSpec Pipeline.

(** The loop survives its failures.  Unmounted, a turn does nothing and
    requests no further turn.  Mounted, a turn always requests the next
    one; when the video is not ready, when detection throws, or when the
    detected hand has fewer than 18 keypoints, nothing is delivered and
    both the tracker and the application are as before. *)
Theorem predict_keeps_going (tr : Tracker) (s : App.State)
    (detection : option HandLandmarkerResult) (now : Z) :
  (isComponentMounted tr = false -> predict tr s detection now = (tr, s, false))
  /\ (isComponentMounted tr = true -> snd (predict tr s detection now) = true)
  /\ (isComponentMounted tr = true ->
      ready tr = false \/ detection = None
      \/ (exists results lm, detection = Some results
                             /\ detected results = Some lm
                             /\ (length lm < 18)%nat) ->
      predict tr s detection now = (tr, s, true)).
Proof.
  unfold predict. split; [|split].
  - intros ->. reflexivity.
  - intros ->; simpl. destruct (if ready tr then _ else _). reflexivity.
  - intros -> H; simpl.
    destruct H as [->|[->|(results & lm & -> & Hd & Hlen)]].
    + reflexivity.
    + destruct (ready tr); reflexivity.
    + assert (Hnone : processResults results = None).
      { apply (processResults_short results lm Hd Hlen). }
      unfold process. rewrite Hnone. destruct (ready tr); reflexivity.
Qed.

Lemma predict_keeps_going_witness :
  predict (mkTracker true true None) App.init
    (Some (mkResult (Some [[origin; origin]]) None)) 1000
  = (mkTracker true true None, App.init, true).
Proof.
  apply (proj2 (proj2 (predict_keeps_going (mkTracker true true None) App.init
                         (Some (mkResult (Some [[origin; origin]]) None)) 1000))).
  - reflexivity.
  - right; right. exists (mkResult (Some [[origin; origin]]) None), [origin; origin].
    repeat split. simpl. lia.
Defined.

(** A frame without a hand, delivered by a running loop, shows NONE in the
    debug cell and hands the neutral pose to the application, whose mode,
    clock and photos stay as they are. *)
Theorem no_hand_frame (tr : Tracker) (s : App.State)
    (results : HandLandmarkerResult) (now : Z) :
  isComponentMounted tr = true -> ready tr = true ->
  detected results = None ->
  predict tr s (Some results) now
  = (mkTracker true true (Some NONE),
     App.mkState (App.appState s) (App.photos s) neutral (App.lastStateChange s),
     true).
Proof.
  intros Hm Hr Hd. unfold predict, process. rewrite Hm, Hr; simpl.
  assert (Hp : processResults results = Some neutral).
  { unfold detected in Hd. unfold processResults.
    destruct (landmarks results) as [[|? ?]|]; try discriminate; reflexivity. }
  rewrite Hp; simpl. rewrite handleHandUpdate_rules; simpl.
  destruct s as [m ps h t]; destruct m; reflexivity.
Qed.

Lemma no_hand_frame_witness :
  predict (mkTracker true true None)
    (App.mkState ZOOM [ModeSpec.a_photo] (ModeSpec.pose PINCH) 1000)
    (Some (mkResult None None)) 5000
  = (mkTracker true true (Some NONE),
     App.mkState ZOOM [ModeSpec.a_photo] neutral 1000, true).
Proof.
  apply (no_hand_frame (mkTracker true true None)
           (App.mkState ZOOM [ModeSpec.a_photo] (ModeSpec.pose PINCH) 1000)
           (mkResult None None) 5000); reflexivity.
Defined.

(** A closed fist always brings the tree back.  Whatever the mode, the
    clock and the time, a frame whose world hand has a mean fingertip to
    wrist distance below 0.085 leaves the application in TREE and the debug
    cell on FIST; when the mode was not TREE the clock is set to now. *)
Theorem fist_frame (tr : Tracker) (s : App.State)
    (results : HandLandmarkerResult) (lm wl : list Landmark) (now : Z) :
  isComponentMounted tr = true -> ready tr = true ->
  detected results = Some lm -> (18 <= length lm)%nat ->
  world results = Some wl -> length wl = 21%nat ->
  (avgFistDist dist3D wl <? 0.085)%float = true ->
  let '(tr', s', again) := predict tr s (Some results) now in
  App.appState s' = TREE
  /\ debugGesture tr' = Some FIST
  /\ again = true
  /\ (App.appState s <> TREE -> App.lastStateChange s' = now).
Proof.
  intros Hm Hr Hd Hlm Hw Hwl Hfist.
  destruct (processResults_world results lm wl Hd Hlm Hw Hwl) as (hd & Hp & Hg).
  rewrite (gesture3D_label wl Hwl) in Hg. unfold rules3D in Hg.
  change (avgFistDist euclidean3D wl) with (avgFistDist dist3D wl) in Hg.
  rewrite Hfist in Hg. cbn [first_match] in Hg. injection Hg as Hg.
  unfold predict, process. rewrite Hm, Hr, Hp; simpl.
  rewrite handleHandUpdate_rules, Hg.
  destruct s as [m ps h t]; simpl.
  destruct m; simpl; repeat split; congruence.
Qed.

Lemma fist_frame_witness :
  App.appState
    (snd (fst (predict (mkTracker true true None)
                 (App.mkState ZOOM [ModeSpec.a_photo] (ModeSpec.pose PINCH) 1000)
                 (Some (mkResult (Some [closed_hand]) (Some [closed_hand]))) 1001)))
  = TREE.
Proof.
  apply (fist_frame (mkTracker true true None)
           (App.mkState ZOOM [ModeSpec.a_photo] (ModeSpec.pose PINCH) 1000)
           (mkResult (Some [closed_hand]) (Some [closed_hand]))
           closed_hand closed_hand 1001); try reflexivity.
  simpl. lia.
Defined.
End DetectionLoop.

(** ** The targets of the photos *)

Section PhotoTargets.
Import SelectionSpec PhotoLayout.

Variable File : Type.
Variable createObjectURL : File -> string.
Variable Math_random : nat -> float.
Variable toString36 : float -> string.
Variable Math_sin Math_cos : float -> float.

Abbreviation reachable := (SelectionSpec.reachable File createObjectURL Math_random toString36).
Abbreviation layout := (PhotoLayout.positions Math_sin Math_cos Math_random).

Lemma positions_length (rng : nat) (photos : list PhotoData) :
  length (layout rng photos) = length photos.
Proof. apply length_imap. Qed.

(** The aspect ratio given at upload is never written again. *)
Lemma reachable_square (w : World.State) :
  reachable w ->
  Forall (fun p => aspectRatio p = 1%float) (App.photos (World.app w)).
Proof.
  revert w.
  apply (reachable_invariant File createObjectURL Math_random toString36
           (fun w => Forall (fun p => aspectRatio p = 1%float)
                       (App.photos (World.app w)))).
  - intros rng. constructor.
  - intros w ev IH. destruct ev as [data now|files].
    + rewrite step_app_HandUpdate, handleHandUpdate_photos. exact IH.
    + rewrite step_app_PhotoUpload. destruct files as [fs|]; simpl; [|exact IH].
      apply Forall_app. split; [exact IH|].
      apply Forall_lookup. intros k p Hk.
      unfold App.newPhotos in Hk. rewrite list_lookup_imap in Hk.
      destruct (fs !! k); [|discriminate]. injection Hk as <-. reflexivity.
Qed.

Lemma isZoomed_iff (m : AppState) (sel : float) (j : nat) :
  isZoomed m sel j = true <-> m = ZOOM /\ (sel =? JSMath.of_nat j)%float = true.
Proof.
  unfold isZoomed. rewrite andb_true_iff, bool_decide_eq_true.
  reflexivity.
Qed.

(** What a frame aims each photo at, in a reachable world.  Every photo
    has a target and stays square: the aspect ratio set at upload is never
    written again.  A photo is zoomed exactly when the mode is ZOOM and its
    index equals the selection; a zoomed photo is aimed at the point in
    front of the camera with no rotation, scale 8 and full opacity; any
    other photo keeps scale 1.5, dimmed to 0.1 in ZOOM and fully opaque
    otherwise; outside ZOOM no photo is zoomed. *)
Theorem photo_targets (w : World.State) (rng : nat) :
  reachable w ->
  let photos := App.photos (World.app w) in
  let target := frameTarget (mode w) (selection w) (layout rng photos) photos in
  let zoomed := fun j =>
    bool_decide (mode w = ZOOM) && (selection w =? JSMath.of_nat j)%float in
  (forall j, (j < count w)%nat ->
             exists tg, target j = Some tg /\ scaleX tg = scaleY tg)
  /\ (forall j tg, target j = Some tg ->
        (zoomed j = true ->
           targetPos tg = (0, 0, 12)%float /\ targetRot tg = (0, 0, 0)%float
           /\ scaleY tg = 8%float /\ targetOpacity tg = 1%float)
        /\ (zoomed j = false ->
            scaleY tg = 1.5%float
            /\ targetOpacity tg
               = (if bool_decide (mode w = ZOOM) then 0.1 else 1)%float))
  /\ (mode w <> ZOOM ->
      forall j tg, target j = Some tg ->
                   scaleY tg = 1.5%float /\ targetOpacity tg = 1%float).
Proof.
  intros Hr photos target zoomed.
  pose proof (reachable_square w Hr) as Hsq. fold photos in Hsq.
  assert (Htg : forall j tg, target j = Some tg ->
            exists p photo, layout rng photos !! j = Some p
              /\ photos !! j = Some photo
              /\ scaleY tg = (if zoomed j then 8 else 1.5)%float
              /\ scaleX tg = (scaleY tg * or1 (aspectRatio photo))%float
              /\ targetOpacity tg
                 = (if bool_decide (mode w = ZOOM) && negb (zoomed j)
                    then 0.1 else 1)%float
              /\ (zoomed j = true ->
                  targetPos tg = (0, 0, 12)%float
                  /\ targetRot tg = (0, 0, 0)%float)).
  { intros j tg. subst target zoomed. unfold frameTarget, isZoomed.
    destruct (layout rng photos !! j) as [p|]; [|discriminate].
    destruct (photos !! j) as [photo|]; [|discriminate].
    cbn [mbind option_bind].
    destruct (bool_decide (mode w = ZOOM) && (selection w =? JSMath.of_nat j)%float);
      intros [= <-]; exists p, photo; repeat split; intros; discriminate. }
  split; [|split].
  - intros j Hj. unfold count in Hj. fold photos in Hj.
    destruct (lookup_lt_is_Some_2 photos j Hj) as [photo Hphoto].
    destruct (lookup_lt_is_Some_2 (layout rng photos) j) as [p Hp];
      [rewrite positions_length; exact Hj|].
    assert (Hsome : is_Some (target j)).
    { subst target. unfold frameTarget. rewrite Hp, Hphoto.
      cbn [mbind option_bind].
      destruct (isZoomed _ _ _); eexists; reflexivity. }
    destruct Hsome as [tg Htgj]. exists tg. split; [exact Htgj|].
    destruct (Htg j tg Htgj) as (p' & photo' & _ & Hph & HsY & HsX & _).
    rewrite Hphoto in Hph. injection Hph as <-.
    rewrite (proj1 (Forall_lookup _ _) Hsq j photo Hphoto) in HsX.
    rewrite HsX, HsY. destruct (zoomed j); reflexivity.
  - intros j tg Htgj.
    destruct (Htg j tg Htgj) as (p & photo & _ & _ & HsY & _ & Hop & Hpos).
    split.
    + intros Hzm. rewrite Hzm in HsY, Hop. rewrite andb_false_r in Hop.
      destruct (Hpos Hzm) as [-> ->]. repeat split; assumption.
    + intros Hzm. rewrite Hzm in HsY, Hop. rewrite andb_true_r in Hop.
      split; assumption.
  - intros Hnz j tg Htgj.
    destruct (Htg j tg Htgj) as (p & photo & _ & _ & HsY & _ & Hop & _).
    assert (Hzm : zoomed j = false).
    { subst zoomed. cbv beta. rewrite bool_decide_eq_false_2 by exact Hnz.
      reflexivity. }
    rewrite Hzm in HsY. rewrite bool_decide_eq_false_2 in Hop by exact Hnz.
    split; assumption.
Qed.
End PhotoTargets.

Lemma photo_targets_witness :
  exists tg,
    PhotoLayout.frameTarget (SelectionSpec.mode SelectionSpec.zoomed)
      (SelectionSpec.selection SelectionSpec.zoomed)
      (PhotoLayout.positions OrnamentsSpec.one OrnamentsSpec.one
         SelectionSpec.three_quarters 0
         (App.photos (World.app SelectionSpec.zoomed)))
      (App.photos (World.app SelectionSpec.zoomed)) 0
    = Some tg
    /\ PhotoLayout.scaleX tg = PhotoLayout.scaleY tg.
Proof.
  apply (proj1 (photo_targets unit SelectionSpec.blob SelectionSpec.three_quarters
                  SelectionSpec.ident OrnamentsSpec.one OrnamentsSpec.one
                  SelectionSpec.zoomed 0%nat zoomed_reachable) 0%nat).
  vm_compute. lia.
Defined.

(** ** Frames of the particle update, one after the other *)

Section ParticleFrames.
Import Ornaments OrnamentsSpec OrnamentsRun.

Variable damp : float -> float -> float -> float -> float.
Variable fround : float -> float.
Variable L : Layout.

Lemma loop_mesh_ge (Math_sin Math_cos : float -> float) (mode : AppState)
    (time delta : float) (n : nat) (st : State) (i : nat) :
  (n <= i)%nat ->
  mesh (fold_left (body damp Math_sin Math_cos fround L mode time delta)
          (seq 0 n) st) !! i
  = mesh st !! i.
Proof.
  intros Hi. induction n as [|n IH]; [reflexivity|].
  rewrite seq_S, fold_left_app; simpl.
  rewrite list_lookup_insert_ne by lia. apply IH. lia.
Qed.

(** A frame keeps the shape of what it works on.  The buffer and the mesh
    keep their lengths; coordinates from index 450 on and instances from
    index 150 on are left as they were; and each of the first 150 instances
    is written afresh from the buffer, so nothing of the previous matrices
    remains in them. *)
Theorem frame_keeps_shape (Math_sin Math_cos : float -> float)
    (mode : AppState) (time delta : float) (st : State) :
  let st' := useFrame damp Math_sin Math_cos fround L mode time delta st in
  length (currentPositions st') = length (currentPositions st)
  /\ length (mesh st') = length (mesh st)
  /\ (forall j, (3 * CONFIG.PARTICLE_COUNT <= j)%nat ->
                currentPositions st' !! j = currentPositions st !! j)
  /\ (forall i, (CONFIG.PARTICLE_COUNT <= i)%nat -> mesh st' !! i = mesh st !! i)
  /\ (forall st2 i,
        currentPositions st2 = currentPositions st ->
        length (mesh st2) = length (mesh st) ->
        (i < CONFIG.PARTICLE_COUNT)%nat ->
        mesh (useFrame damp Math_sin Math_cos fround L mode time delta st2) !! i
        = mesh st' !! i).
Proof.
  intros st'. subst st'.
  split; [|split; [|split; [|split]]].
  - rewrite useFrame_buffer. apply damped_length.
  - apply loop_mesh_length.
  - intros j Hj. rewrite useFrame_buffer, damped_lookup.
    destruct (Nat.ltb_spec j (3 * CONFIG.PARTICLE_COUNT)); [lia|].
    destruct (currentPositions st !! j); reflexivity.
  - intros i Hi. apply loop_mesh_ge. exact Hi.
  - intros st2 i Hcur Hlen Hi. unfold useFrame.
    destruct (decide (i < length (mesh st))%nat) as [Hin|Hout].
    + rewrite !loop_mesh by (rewrite ?Hlen; assumption).
      rewrite Hcur. reflexivity.
    + rewrite !(proj2 (lookup_ge_None _ _));
        rewrite ?loop_mesh_length, ?Hlen; try reflexivity; lia.
Qed.

End ParticleFrames.

Lemma frame_keeps_shape_witness :
  Ornaments.mesh
    (Ornaments.useFrame OrnamentsSpec.halfway OrnamentsSpec.one OrnamentsSpec.one
       (fun v => v) OrnamentsSpec.flat SCATTERED 1 0.016 OrnamentsSpec.at_rest)
    !! 150%nat
  = Ornaments.mesh OrnamentsSpec.at_rest !! 150%nat.
Proof.
  apply (proj1 (proj2 (proj2 (proj2
           (frame_keeps_shape OrnamentsSpec.halfway (fun v => v)
              OrnamentsSpec.flat OrnamentsSpec.one OrnamentsSpec.one SCATTERED
              1 0.016 OrnamentsSpec.at_rest)))) 150%nat).
  unfold CONFIG.PARTICLE_COUNT. lia.
Defined.

Lemma fold_left_step {A B : Type} (f : A -> B -> A) (b : B) (l : list B) (a : A) :
  fold_left f (b :: l) a = fold_left f l (f a b).
Proof. reflexivity. Qed.

Section ParticleRuns.
Import Ornaments OrnamentsSpec OrnamentsRun.
Variable damp : float -> float -> float -> float -> float.
Variable fround : float -> float.
Variable L : Layout.

Lemma frames_buffer (Math_sin Math_cos : float -> float) (ticks : list Tick) :
  forall st : State,
    currentPositions (frames damp Math_sin Math_cos fround L ticks st)
    = damped_by damp fround L ticks (currentPositions st).
Proof.
  unfold frames, damped_by.
  induction ticks as [|k ticks IH]; intros st; [reflexivity|].
  rewrite !fold_left_step. rewrite IH. cbv beta.
  rewrite useFrame_buffer. reflexivity.
Qed.

Lemma damped_by_ext (ticks ticks' : list Tick) :
  map (fun k => (tick_mode k, tick_delta k)) ticks
  = map (fun k => (tick_mode k, tick_delta k)) ticks' ->
  forall old, damped_by damp fround L ticks old = damped_by damp fround L ticks' old.
Proof.
  unfold damped_by. revert ticks'.
  induction ticks as [|k ticks IH]; intros [|k' ticks'] E old;
    try discriminate E; [reflexivity|].
  cbn [map] in E. injection E as Em Ed Et. rewrite !fold_left_step.
  rewrite Em, Ed. apply IH. exact Et.
Qed.

(** Jitter never builds up.  After any number of frames the buffer is what
    the damping passes alone produce: two runs from the same buffer whose
    frames have the same modes and time steps end with the same buffer,
    whatever their elapsed times and whatever sine and cosine they use. *)
Theorem frames_forget_jitter (sin1 cos1 sin2 cos2 : float -> float)
    (ticks1 ticks2 : list Tick) (st1 st2 : State) :
  currentPositions st1 = currentPositions st2 ->
  map (fun k => (tick_mode k, tick_delta k)) ticks1
  = map (fun k => (tick_mode k, tick_delta k)) ticks2 ->
  currentPositions (frames damp sin1 cos1 fround L ticks1 st1)
  = currentPositions (frames damp sin2 cos2 fround L ticks2 st2)
  /\ currentPositions (frames damp sin1 cos1 fround L ticks1 st1)
     = damped_by damp fround L ticks1 (currentPositions st1).
Proof.
  intros Hcur Hticks. rewrite !frames_buffer, Hcur.
  split; [|reflexivity].
  apply damped_by_ext. exact Hticks.
Qed.
End ParticleRuns.

Lemma frames_forget_jitter_witness :
  Ornaments.currentPositions
    (OrnamentsRun.frames OrnamentsSpec.halfway OrnamentsSpec.one OrnamentsSpec.one
       (fun v => v) OrnamentsSpec.flat
       [OrnamentsRun.mkTick SCATTERED 1 0.016; OrnamentsRun.mkTick TREE 2 0.016]
       OrnamentsSpec.at_rest)
  = Ornaments.currentPositions
      (OrnamentsRun.frames OrnamentsSpec.halfway (fun t => t) (fun t => t)
         (fun v => v) OrnamentsSpec.flat
         [OrnamentsRun.mkTick SCATTERED 7 0.016; OrnamentsRun.mkTick TREE 9 0.016]
         OrnamentsSpec.at_rest).
Proof.
  exact (proj1 (frames_forget_jitter OrnamentsSpec.halfway (fun v => v)
           OrnamentsSpec.flat
           OrnamentsSpec.one OrnamentsSpec.one (fun t => t) (fun t => t)
           [OrnamentsRun.mkTick SCATTERED 1 0.016; OrnamentsRun.mkTick TREE 2 0.016]
           [OrnamentsRun.mkTick SCATTERED 7 0.016; OrnamentsRun.mkTick TREE 9 0.016]
           OrnamentsSpec.at_rest OrnamentsSpec.at_rest eq_refl eq_refl)).
Defined.
